(** * rclcpp events executor: entities collector and topic registration

    A shallow embedding of
      - [rclcpp/executors/events_executor_entities_collector.cpp]
      - [rclcpp/node_interfaces/node_topics.cpp]
    over an explicit store of the shared C++ objects (nodes, callback groups,
    entities, publishers), with weak pointers as addresses that may have no
    object left in the store. *)

From stdpp Require Import base option list strings gmap sets fin_maps.

Set Warnings "-clear-no-such-hyp".

Open Scope string_scope.
Open Scope list_scope.

(** ** Outcomes of a call: normal return, C++ exception, or undefined
    behaviour (dereference of a pointer without object).  The state reached
    when an exception leaves a function is kept: nothing is rolled back by
    the language. *)

Inductive exception :=
| runtime_error (what : string)
| invalid_argument (what : string).

Inductive outcome (A : Type) :=
| Ok (a : A)
| Throw (e : exception)
| Undefined.
Arguments Ok {A} a.
Arguments Throw {A} e.
Arguments Undefined {A}.

Definition M (S A : Type) : Type := S → outcome A * S.

Global Instance M_ret {S} : MRet (M S) := λ A a s, (Ok a, s).

Global Instance M_bind {S} : MBind (M S) := λ A B f m s,
  match m s with
  | (Ok a, s') => f a s'
  | (Throw e, s') => (Throw e, s')
  | (Undefined, s') => (Undefined, s')
  end.

Definition throw {S A} (e : exception) : M S A := λ s, (Throw e, s).
Definition undefined {S A} : M S A := λ s, (Undefined, s).
Definition gets {S A} (f : S → A) : M S A := λ s, (Ok (f s), s).
Definition modify {S} (f : S → S) : M S unit := λ s, (Ok tt, f s).
Definition call {S A} (f : S → A * S) : M S A := λ s, let (a, s') := f s in (Ok a, s').

(** ** Data model *)

Abbreviation addr := nat (only parsing).

Definition rcl_ret_t := Z.
Definition RCL_RET_OK : rcl_ret_t := 0%Z.
Definition RCL_RET_ERROR : rcl_ret_t := 1%Z.

(** [&EventsExecutor::push_event], the only function pointer that is ever
    registered. *)
Inductive EventsExecutorCallback := push_event.

(** What [set_events_executor_callback(executor, callback)] leaves on an
    entity: both pointers, null or not. *)
Record Registration := mkRegistration {
  executor_context : option addr;
  executor_callback : option EventsExecutorCallback;
}.

Definition unregistered : Registration := mkRegistration None None.

Inductive rmw_qos_history_policy_t :=
| RMW_QOS_POLICY_HISTORY_SYSTEM_DEFAULT
| RMW_QOS_POLICY_HISTORY_KEEP_LAST
| RMW_QOS_POLICY_HISTORY_KEEP_ALL
| RMW_QOS_POLICY_HISTORY_UNKNOWN.

Inductive rmw_qos_durability_policy_t :=
| RMW_QOS_POLICY_DURABILITY_SYSTEM_DEFAULT
| RMW_QOS_POLICY_DURABILITY_TRANSIENT_LOCAL
| RMW_QOS_POLICY_DURABILITY_VOLATILE
| RMW_QOS_POLICY_DURABILITY_UNKNOWN.

Global Instance history_eq_dec : EqDecision rmw_qos_history_policy_t.
Proof. solve_decision. Defined.
Global Instance durability_eq_dec : EqDecision rmw_qos_durability_policy_t.
Proof. solve_decision. Defined.

(** The policy fields of [rmw_qos_profile_t] that the code reads. *)
Record rmw_qos_profile_t := mkQos {
  history : rmw_qos_history_policy_t;
  depth : N;
  durability : rmw_qos_durability_policy_t;
}.

Inductive IntraProcessBufferType := SharedPtrBuffer | UniquePtrBuffer | CallbackDefaultBuffer.

(** The derived part of the objects a callback group can hold. *)
Record SubscriptionFields := mkSubscriptionFields {
  sub_topic_name : string;
  sub_event_handlers : list addr;
  sub_intra_process_id : option Z;
}.

Inductive EntityKind :=
| TimerBase
| SubscriptionBase (s : SubscriptionFields)
| ServiceBase
| ClientBase
| QOSEventHandler
| SubscriptionIntraProcess (buffer_type : IntraProcessBufferType)
    (topic_name : string) (qos : rmw_qos_profile_t)
| OtherWaitable.

Record Entity := mkEntity {
  kind : EntityKind;
  events_executor_callback : Registration;
}.

Definition set_events_executor_callback
    (executor : option addr) (callback : option EventsExecutorCallback)
    (e : Entity) : Entity :=
  mkEntity (kind e) (mkRegistration executor callback).

Record CallbackGroup := mkCallbackGroup {
  can_be_taken_from : bool;
  timer_ptrs : list addr;
  subscription_ptrs : list addr;
  service_ptrs : list addr;
  client_ptrs : list addr;
  waitable_ptrs : list addr;
}.

(** The node's notify guard condition: the executor callback bound to it
    and the number of times it has been triggered. *)
Record GuardCondition := mkGuardCondition {
  gc_executor_context : option addr;
  gc_executor_callback : option EventsExecutorCallback;
  gc_entity : option addr;
  gc_triggered : nat;
}.

Record NodeBase := mkNodeBase {
  associated_with_executor : bool;
  callback_groups : list addr;
  default_callback_group : addr;
  notify_guard_condition : GuardCondition;
}.

Record PublisherBase := mkPublisherBase {
  pub_topic_name : string;
  pub_event_handlers : list addr;
  pub_intra_process_id : option Z;
}.

(** Modelled from the spec: the process-wide intra-process manager
    ([intra_process_manager.hpp] is not among the sources).  The spec gives
    it as a registry keyed by a numeric id unique within the lifetime of the
    manager, with [add_publisher(pub) -> id], [add_subscription(sub) -> id]
    and lookup by id. *)
Record IntraProcessManager := mkIPM {
  ipm_next_id : Z;
  ipm_publishers : gmap Z addr;
  ipm_subscriptions : gmap Z addr;
}.

(** The transport layer below rclcpp is an external collaborator; the return
    codes it gives are part of the environment (the repository's tests patch
    them in the same way). *)
Record Rcl := mkRcl {
  rcl_set_callback_ret : rcl_ret_t;
  rcl_trigger_ret : rcl_ret_t;
  rmw_error_string : string;
}.

Record World := mkWorld {
  nodes : gmap addr NodeBase;
  groups : gmap addr CallbackGroup;
  entities : gmap addr Entity;
  publishers : gmap addr PublisherBase;
  ipm : IntraProcessManager;
  rcl : Rcl;
}.

Definition with_nodes (f : gmap addr NodeBase → gmap addr NodeBase) (w : World) : World :=
  mkWorld (f (nodes w)) (groups w) (entities w) (publishers w) (ipm w) (rcl w).
Definition with_groups (f : gmap addr CallbackGroup → gmap addr CallbackGroup) (w : World) : World :=
  mkWorld (nodes w) (f (groups w)) (entities w) (publishers w) (ipm w) (rcl w).
Definition with_entities (f : gmap addr Entity → gmap addr Entity) (w : World) : World :=
  mkWorld (nodes w) (groups w) (f (entities w)) (publishers w) (ipm w) (rcl w).
Definition with_publishers (f : gmap addr PublisherBase → gmap addr PublisherBase) (w : World) : World :=
  mkWorld (nodes w) (groups w) (entities w) (f (publishers w)) (ipm w) (rcl w).
Definition with_ipm (f : IntraProcessManager → IntraProcessManager) (w : World) : World :=
  mkWorld (nodes w) (groups w) (entities w) (publishers w) (f (ipm w)) (rcl w).

(** [weak_ptr::lock()] on a pointer to an entity. *)
Definition lock_entity (p : addr) (w : World) : option addr :=
  match entities w !! p with
  | Some _ => Some p
  | None => None
  end.

(** ** The entities collector *)

(** Modelled from the spec: the timers manager is consumed through
    [add_timer], [remove_timer] and [clear_all]; it owns the set of
    registered timers. *)
Module TimersManager.
Definition add_timer (timer : addr) (tm : gset addr) : gset addr := {[timer]} ∪ tm.
Definition remove_timer (timer : addr) (tm : gset addr) : gset addr := tm ∖ {[timer]}.
Definition clear_all (tm : gset addr) : gset addr := ∅.
End TimersManager.

Record EventsExecutorEntitiesCollector := mkCollector {
  this : addr;
  associated_executor_ : addr;
  timers_manager_ : gset addr;
  weak_nodes_ : list addr;
}.

Definition with_timers_manager (f : gset addr → gset addr)
    (c : EventsExecutorEntitiesCollector) : EventsExecutorEntitiesCollector :=
  mkCollector (this c) (associated_executor_ c) (f (timers_manager_ c)) (weak_nodes_ c).
Definition with_weak_nodes (f : list addr → list addr)
    (c : EventsExecutorEntitiesCollector) : EventsExecutorEntitiesCollector :=
  mkCollector (this c) (associated_executor_ c) (timers_manager_ c) (f (weak_nodes_ c)).

(** A method of the collector runs on the collector and the shared store. *)
Abbreviation CState := (EventsExecutorEntitiesCollector * World)%type.

(** Modelled from the spec: [CallbackGroup::find_*_ptrs_if], declared in a
    header that is not among the sources.  Each kind of entity is iterable
    from its group: the weak pointers are locked in order, the function is
    called on every pointer that is still alive, and the walk stops at the
    first pointer for which it answers true. *)
Fixpoint find_ptrs_if {S} (world : S → World) (func : option addr → S → bool * S)
    (ptrs : list addr) (s : S) : option addr * S :=
  match ptrs with
  | [] => (None, s)
  | weak_ptr :: rest =>
      match lock_entity weak_ptr (world s) with
      | Some ref_ptr =>
          let (found, s') := func (Some ref_ptr) s in
          if found then (Some ref_ptr, s') else find_ptrs_if world func rest s'
      | None => find_ptrs_if world func rest s
      end
  end.

Definition find_timer_ptrs_if (group : CallbackGroup) func (s : CState) :=
  find_ptrs_if snd func (timer_ptrs group) s.
Definition find_subscription_ptrs_if (group : CallbackGroup) func (s : CState) :=
  find_ptrs_if snd func (subscription_ptrs group) s.
Definition find_service_ptrs_if (group : CallbackGroup) func (s : CState) :=
  find_ptrs_if snd func (service_ptrs group) s.
Definition find_client_ptrs_if (group : CallbackGroup) func (s : CState) :=
  find_ptrs_if snd func (client_ptrs group) s.
Definition find_waitable_ptrs_if (group : CallbackGroup) func (s : CState) :=
  find_ptrs_if snd func (waitable_ptrs group) s.

(** The lambdas of [set_entities_callbacks] and [remove_node]. *)
Definition timer_lambda (op : addr → gset addr → gset addr)
    (timer : option addr) (s : CState) : bool * CState :=
  match timer with
  | Some t => (false, (with_timers_manager (op t) s.1, s.2))
  | None => (false, s)
  end.

Definition entity_lambda (executor : option addr) (callback : option EventsExecutorCallback)
    (entity : option addr) (s : CState) : bool * CState :=
  match entity with
  | Some e =>
      (false, (s.1, with_entities (alter (set_events_executor_callback executor callback) e) s.2))
  | None => (false, s)
  end.

(** The body of the loop over the callback groups of a node, in
    [set_entities_callbacks]. *)
Definition set_group_callbacks (weak_group : addr) (s : CState) : CState :=
  match groups s.2 !! weak_group with
  | None => s
  | Some group =>
      if negb (can_be_taken_from group) then s
      else
        let this_ := s.1 in
        let s := (find_timer_ptrs_if group (timer_lambda TimersManager.add_timer) s).2 in
        let s := (find_subscription_ptrs_if group
                    (entity_lambda (Some (associated_executor_ this_)) (Some push_event)) s).2 in
        let s := (find_service_ptrs_if group
                    (entity_lambda (Some (associated_executor_ this_)) (Some push_event)) s).2 in
        let s := (find_client_ptrs_if group
                    (entity_lambda (Some (associated_executor_ this_)) (Some push_event)) s).2 in
        let s := (find_waitable_ptrs_if group
                    (entity_lambda (Some (associated_executor_ this_)) (Some push_event)) s).2 in
        s
  end.

(** [EventsExecutorEntitiesCollector::set_entities_callbacks].  The callers
    pass a shared pointer they have just locked or dereferenced. *)
Definition set_entities_callbacks (node : addr) (s : CState) : CState :=
  match nodes s.2 !! node with
  | None => s
  | Some n => foldl (λ s weak_group, set_group_callbacks weak_group s) s (callback_groups n)
  end.

(** [EventsExecutorEntitiesCollector::execute]. *)
Definition execute (s : CState) : CState :=
  let s := (with_timers_manager TimersManager.clear_all s.1, s.2) in
  foldl (λ s weak_node,
           match nodes s.2 !! weak_node with
           | None => s
           | Some _ => set_entities_callbacks weak_node s
           end) s (weak_nodes_ s.1).

(** [EventsExecutorEntitiesCollector::~EventsExecutorEntitiesCollector]. *)
Definition set_has_executor (b : bool) (n : NodeBase) : NodeBase :=
  mkNodeBase b (callback_groups n) (default_callback_group n) (notify_guard_condition n).

Definition destructor (s : CState) : CState :=
  let w := foldl (λ w weak_node,
                    match nodes w !! weak_node with
                    | Some _ => with_nodes (alter (set_has_executor false) weak_node) w
                    | None => w
                    end) s.2 (weak_nodes_ s.1) in
  (with_weak_nodes (λ _, []) s.1, w).

(** [weak_ptr::lock()] on a pointer to a node. *)
Definition lock_node (p : addr) (w : World) : option addr :=
  match nodes w !! p with
  | Some _ => Some p
  | None => None
  end.

Definition set_guard_condition_callback
    (executor_context : option addr) (executor_callback : option EventsExecutorCallback)
    (entity : option addr) (n : NodeBase) : NodeBase :=
  mkNodeBase (associated_with_executor n) (callback_groups n) (default_callback_group n)
    (mkGuardCondition executor_context executor_callback entity
       (gc_triggered (notify_guard_condition n))).

(** The external [rcl_guard_condition_set_events_executor_callback]: binds
    the callback to the guard condition of the node and answers
    [RCL_RET_OK], or answers the failure code of the environment and binds
    nothing. *)
Definition rcl_guard_condition_set_events_executor_callback
    (executor_context : option addr) (executor_callback : option EventsExecutorCallback)
    (entity : option addr) (guard_condition : addr) (use_previous_events : bool)
    (w : World) : rcl_ret_t * World :=
  if decide (rcl_set_callback_ret (rcl w) = RCL_RET_OK)
  then (RCL_RET_OK,
        with_nodes (alter (set_guard_condition_callback executor_context executor_callback entity)
                      guard_condition) w)
  else (rcl_set_callback_ret (rcl w), w).

(** [EventsExecutorEntitiesCollector::add_node]. *)
Definition add_node (node_ptr : addr) : M CState unit :=
  node ← gets (λ s, nodes s.2 !! node_ptr);
  match node with
  | None => undefined
  | Some n =>
      (* has_executor.exchange(true) *)
      let has_executor := associated_with_executor n in
      modify (λ s, (s.1, with_nodes (alter (set_has_executor true) node_ptr) s.2));;
      if has_executor
      then throw (runtime_error "Node has already been added to an executor.")
      else
        modify (λ s, (with_weak_nodes (λ l, l ++ [node_ptr]) s.1, s.2));;
        modify (set_entities_callbacks node_ptr);;
        ret ← call (λ s,
                 let (ret, w) :=
                   rcl_guard_condition_set_events_executor_callback
                     (Some (associated_executor_ s.1)) (Some push_event) (Some (this s.1))
                     node_ptr false s.2 in
                 (ret, (s.1, w)));
        if decide (ret ≠ RCL_RET_OK)
        then throw (runtime_error "Couldn't set node guard condition callback")
        else mret tt
  end.

(** The body of the loop over the callback groups of a node, in
    [remove_node]. *)
Definition unset_group_callbacks (weak_group : addr) (s : CState) : CState :=
  match groups s.2 !! weak_group with
  | None => s
  | Some group =>
      if negb (can_be_taken_from group) then s
      else
        let s := (find_timer_ptrs_if group (timer_lambda TimersManager.remove_timer) s).2 in
        let s := (find_subscription_ptrs_if group (entity_lambda None None) s).2 in
        let s := (find_service_ptrs_if group (entity_lambda None None) s).2 in
        let s := (find_client_ptrs_if group (entity_lambda None None) s).2 in
        let s := (find_waitable_ptrs_if group (entity_lambda None None) s).2 in
        s
  end.

(** [EventsExecutorEntitiesCollector::remove_node]: [node_it] is the index
    [i] into [weak_nodes_], [rest] what lies from it to [weak_nodes_.end()].
    A [node_ptr] without object is the null pointer: it compares equal to the
    null pointer that [lock()] answers for an expired tracked pointer, and is
    then dereferenced. *)
Fixpoint remove_node_from (node_ptr : addr) (i : nat) (rest : list addr) : M CState unit :=
  match rest with
  | [] => mret tt
  | weak_node :: rest' =>
      matched ← gets (λ s, bool_decide (lock_node weak_node s.2 = lock_node node_ptr s.2));
      if (matched : bool) then
        (* node_ptr->get_notify_guard_condition() *)
        node ← gets (λ s, nodes s.2 !! node_ptr);
        match node with
        | None => undefined
        | Some _ =>
            ret ← call (λ s,
                     let (ret, w) :=
                       rcl_guard_condition_set_events_executor_callback
                         None None None node_ptr false s.2 in
                     (ret, (s.1, w)));
            if decide (ret ≠ RCL_RET_OK)
            then throw (runtime_error "Couldn't set guard condition callback")
            else
              (* node_ptr->get_callback_groups() *)
              node ← gets (λ s, nodes s.2 !! node_ptr);
              match node with
              | None => undefined
              | Some n =>
                  modify (λ s, foldl (λ s weak_group, unset_group_callbacks weak_group s) s
                                 (callback_groups n));;
                  modify (λ s, (with_weak_nodes (delete i) s.1, s.2))
              end
        end
      else remove_node_from node_ptr (S i) rest'
  end.

Definition remove_node (node_ptr : addr) : M CState unit :=
  weak_nodes ← gets (λ s, weak_nodes_ s.1);
  remove_node_from node_ptr 0 weak_nodes.

(** ** The executor

    Modelled from the spec: [EventsExecutor::add_node] and
    [EventsExecutor::remove_node] ([events_executor.cpp] is not among the
    sources; the collector above is what they call).  The spec gives
    [add_unit] as the collector's [add_node]: it fails if the ownership flag
    of the unit is already set, otherwise registers the unit with the
    collector, binds its topology-change signal and performs the initial
    wiring pass.  It gives [remove_unit] as unwiring every entity reachable
    from the unit, clearing the topology-change binding and dropping the unit
    from the tracked set, a no-op if the unit was never added; the ownership
    flag says that the unit belongs to an executor, which after its removal
    it does no more, and after removal from A adding to B succeeds.  The
    executor runs on its own collector and the shared store. *)
Module EventsExecutor.

Definition add_node (node_ptr : addr) : M CState unit :=
  add_node node_ptr.

Definition remove_node (node_ptr : addr) : M CState unit :=
  tracked ← gets (λ s, bool_decide (node_ptr ∈ weak_nodes_ s.1));
  remove_node node_ptr;;
  if (tracked : bool)
  then modify (λ s, (s.1, with_nodes (alter (set_has_executor false) node_ptr) s.2))
  else mret tt.

End EventsExecutor.

(** ** Topic registration: [NodeTopics] *)

Record rcl_publisher_options_t := mkPublisherOptions {
  publisher_qos : rmw_qos_profile_t;
}.

Record rcl_subscription_options_t := mkSubscriptionOptions {
  subscription_qos : rmw_qos_profile_t;
}.

(** The factories are closures supplied by the caller; they build the value
    of the new object, which is then placed in the store at a new address. *)
Record PublisherFactory := mkPublisherFactory {
  create_typed_publisher : addr → string → rcl_publisher_options_t → PublisherBase;
}.

Record SubscriptionFactory := mkSubscriptionFactory {
  create_typed_subscription : addr → string → rcl_subscription_options_t → SubscriptionFields;
  create_typed_subscription_intra_process :
    IntraProcessBufferType → string → rcl_subscription_options_t → EntityKind;
}.

Definition make_shared_publisher (p : PublisherBase) (w : World) : addr * World :=
  let a := fresh (dom (publishers w)) in
  (a, with_publishers (insert a p) w).

Definition make_shared_entity (e : Entity) (w : World) : addr * World :=
  let a := fresh (dom (entities w)) in
  (a, with_entities (insert a e) w).

(** Modelled from the spec: [IntraProcessManager::add_publisher],
    [add_subscription] and [get_subscription_intra_process]; the manager
    hands out the next numeric id and keeps the endpoint under it. *)
Definition ipm_add_publisher (publisher : addr) (m : IntraProcessManager)
    : Z * IntraProcessManager :=
  let id := ipm_next_id m in
  (id, mkIPM (id + 1) (<[id := publisher]> (ipm_publishers m)) (ipm_subscriptions m)).

Definition ipm_add_subscription (subscription : addr) (m : IntraProcessManager)
    : Z * IntraProcessManager :=
  let id := ipm_next_id m in
  (id, mkIPM (id + 1) (ipm_publishers m) (<[id := subscription]> (ipm_subscriptions m))).

Definition ipm_get_subscription_intra_process (id : Z) (w : World) : option addr :=
  p ← ipm_subscriptions (ipm w) !! id; lock_entity p w.

(** [PublisherBase::setup_intra_process] and
    [SubscriptionBase::setup_intra_process] store the id (the manager is the
    one of the process). *)
Definition publisher_setup_intra_process (id : Z) (p : PublisherBase) : PublisherBase :=
  mkPublisherBase (pub_topic_name p) (pub_event_handlers p) (Some id).

Definition subscription_setup_intra_process (id : Z) (e : Entity) : Entity :=
  match kind e with
  | SubscriptionBase f =>
      mkEntity
        (SubscriptionBase (mkSubscriptionFields (sub_topic_name f) (sub_event_handlers f) (Some id)))
        (events_executor_callback e)
  | _ => e
  end.

Definition subscription_fields (e : Entity) : option SubscriptionFields :=
  match kind e with
  | SubscriptionBase f => Some f
  | _ => None
  end.

Record NodeTopics := mkNodeTopics {
  node_base_ : addr;
}.

(** [NodeTopics::create_publisher].  Until the function returns, the local
    shared pointer is the only owner of the new publisher: when an exception
    leaves the function the publisher is destroyed with it. *)
Definition create_publisher (nt : NodeTopics) (topic_name : string)
    (publisher_factory : PublisherFactory) (publisher_options : rcl_publisher_options_t)
    (use_intra_process : bool) : M World addr :=
  publisher ← call (make_shared_publisher
                      (create_typed_publisher publisher_factory (node_base_ nt)
                         topic_name publisher_options));
  (if use_intra_process then
     if decide (history (publisher_qos publisher_options) = RMW_QOS_POLICY_HISTORY_KEEP_ALL)
     then
       modify (with_publishers (delete publisher));;
       throw (invalid_argument
                "intraprocess communication is not allowed with keep all history qos policy")
     else if decide (durability (publisher_qos publisher_options)
                       ≠ RMW_QOS_POLICY_DURABILITY_VOLATILE)
     then
       modify (with_publishers (delete publisher));;
       throw (invalid_argument
                "intraprocess communication allowed only with volatile durability")
     else
       intra_process_publisher_id ←
         call (λ w, let (id, m) := ipm_add_publisher publisher (ipm w) in
                    (id, with_ipm (λ _, m) w));
       modify (with_publishers
                 (alter (publisher_setup_intra_process intra_process_publisher_id) publisher))
   else mret tt);;
  mret publisher.

(** [NodeTopics::create_subscription].  As for the publisher, the new
    subscription is destroyed when an exception leaves the function. *)
Definition create_subscription (nt : NodeTopics) (topic_name : string)
    (subscription_factory : SubscriptionFactory)
    (subscription_options : rcl_subscription_options_t)
    (use_intra_process : bool) (buffer_type : IntraProcessBufferType) : M World addr :=
  subscription ← call (make_shared_entity
                         (mkEntity
                            (SubscriptionBase
                               (create_typed_subscription subscription_factory (node_base_ nt)
                                  topic_name subscription_options))
                            unregistered));
  (if use_intra_process then
     if decide (history (subscription_qos subscription_options)
                  = RMW_QOS_POLICY_HISTORY_KEEP_ALL)
     then
       modify (with_entities (delete subscription));;
       throw (invalid_argument
                "intraprocess communication is not allowed with keep all history qos policy")
     else if decide (history (subscription_qos subscription_options)
                       = RMW_QOS_POLICY_HISTORY_KEEP_LAST
                     ∧ depth (subscription_qos subscription_options) = 0%N)
     then
       modify (with_entities (delete subscription));;
       throw (invalid_argument
                "intraprocess communication is not allowed with keep last history and 0 depth qos policy")
     else if decide (durability (subscription_qos subscription_options)
                       ≠ RMW_QOS_POLICY_DURABILITY_VOLATILE)
     then
       modify (with_entities (delete subscription));;
       throw (invalid_argument
                "intraprocess communication allowed only with volatile durability")
     else
       sub ← gets (λ w, entities w !! subscription ≫= subscription_fields);
       match sub with
       | None => undefined
       | Some f =>
           subscription_intra_process ←
             call (make_shared_entity
                     (mkEntity
                        (create_typed_subscription_intra_process subscription_factory
                           buffer_type (sub_topic_name f) subscription_options)
                        unregistered));
           intra_process_subscription_id ←
             call (λ w, let (id, m) := ipm_add_subscription subscription_intra_process (ipm w) in
                        (id, with_ipm (λ _, m) w));
           modify (with_entities
                     (alter (subscription_setup_intra_process intra_process_subscription_id)
                        subscription))
       end
   else mret tt);;
  mret subscription.

(** [weak_ptr::lock()] on a pointer to a callback group. *)
Definition lock_group (p : addr) (w : World) : option addr :=
  match groups w !! p with
  | Some _ => Some p
  | None => None
  end.

(** Modelled from the spec: [NodeBase::callback_group_in_node], whether the
    group belongs to the node, that is, whether one of the node's weak group
    pointers is alive and is this group. *)
Definition callback_group_in_node (n : NodeBase) (group : addr) (w : World) : bool :=
  existsb (λ weak_group, bool_decide (lock_group weak_group w = Some group)) (callback_groups n).

(** [CallbackGroup::add_waitable] and [CallbackGroup::add_subscription]
    append a weak pointer to the lists of the group. *)
Definition group_push_waitable (p : addr) (g : CallbackGroup) : CallbackGroup :=
  mkCallbackGroup (can_be_taken_from g) (timer_ptrs g) (subscription_ptrs g)
    (service_ptrs g) (client_ptrs g) (waitable_ptrs g ++ [p]).

Definition group_push_subscription (p : addr) (g : CallbackGroup) : CallbackGroup :=
  mkCallbackGroup (can_be_taken_from g) (timer_ptrs g) (subscription_ptrs g ++ [p])
    (service_ptrs g) (client_ptrs g) (waitable_ptrs g).

Definition group_method (f : CallbackGroup → CallbackGroup) (callback_group : addr)
    : M World unit :=
  group ← gets (λ w, groups w !! callback_group);
  match group with
  | None => undefined
  | Some _ => modify (with_groups (alter f callback_group))
  end.

Definition add_waitable (callback_group : addr) (waitable : addr) : M World unit :=
  group_method (group_push_waitable waitable) callback_group.

(** A range-based [for] whose body may throw. *)
Fixpoint for_each {S A} (l : list A) (body : A → M S unit) : M S unit :=
  match l with
  | [] => mret tt
  | x :: l' => body x;; for_each l' body
  end.

Definition trigger_guard_condition (n : NodeBase) : NodeBase :=
  mkNodeBase (associated_with_executor n) (callback_groups n) (default_callback_group n)
    (mkGuardCondition
       (gc_executor_context (notify_guard_condition n))
       (gc_executor_callback (notify_guard_condition n))
       (gc_entity (notify_guard_condition n))
       (S (gc_triggered (notify_guard_condition n)))).

(** The external [rcl_trigger_guard_condition]. *)
Definition rcl_trigger_guard_condition (guard_condition : addr) (w : World)
    : rcl_ret_t * World :=
  if decide (rcl_trigger_ret (rcl w) = RCL_RET_OK)
  then (RCL_RET_OK, with_nodes (alter trigger_guard_condition guard_condition) w)
  else (rcl_trigger_ret (rcl w), w).

(** The first lines of [add_publisher] and [add_subscription]: the group the
    endpoint is assigned to. *)
Definition assign_to_group (nt : NodeTopics) (callback_group : option addr) (what : string)
    : M World addr :=
  node ← gets (λ w, nodes w !! node_base_ nt);
  match node with
  | None => undefined
  | Some n =>
      match callback_group with
      | Some group =>
          in_node ← gets (callback_group_in_node n group);
          if negb in_node then throw (runtime_error what) else mret group
      | None => mret (default_callback_group n)
      end
  end.

(** The last lines of [add_publisher] and [add_subscription]. *)
Definition notify_executor (nt : NodeTopics) (what : string) : M World unit :=
  ret ← call (rcl_trigger_guard_condition (node_base_ nt));
  if decide (ret ≠ RCL_RET_OK)
  then
    error_string ← gets (λ w, rmw_error_string (rcl w));
    throw (runtime_error (what +:+ error_string))
  else mret tt.

(** [NodeTopics::add_publisher]. *)
Definition add_publisher (nt : NodeTopics) (publisher : addr) (callback_group : option addr)
    : M World unit :=
  callback_group ← assign_to_group nt callback_group
                     "Cannot create publisher, callback group not in node.";
  pub ← gets (λ w, publishers w !! publisher);
  match pub with
  | None => undefined
  | Some p =>
      for_each (pub_event_handlers p) (λ publisher_event,
        add_waitable callback_group publisher_event);;
      notify_executor nt "Failed to notify wait set on publisher creation: "
  end.

(** [NodeTopics::add_subscription].  When the manager has no live object
    under the id, the null pointer it answers is pushed into the group, where
    it can never be locked; the model pushes nothing. *)
Definition add_subscription (nt : NodeTopics) (subscription : addr)
    (callback_group : option addr) (use_intra_process : bool) : M World unit :=
  callback_group ← assign_to_group nt callback_group
                     "Cannot create subscription, callback group not in node.";
  group_method (group_push_subscription subscription) callback_group;;
  sub ← gets (λ w, entities w !! subscription ≫= subscription_fields);
  match sub with
  | None => undefined
  | Some f =>
      for_each (sub_event_handlers f) (λ subscription_event,
        add_waitable callback_group subscription_event);;
      (if use_intra_process then
         match sub_intra_process_id f with
         | None => undefined
         | Some id =>
             subscription_intra_process ← gets (ipm_get_subscription_intra_process id);
             match subscription_intra_process with
             | Some waitable => add_waitable callback_group waitable
             | None => group_method (λ g, g) callback_group
             end
         end
       else mret tt);;
      notify_executor nt "Failed to notify wait set on subscription creation: "
  end.

(** ** A concrete store, used to run the code.

    Node 1 has the enabled group 10 (timer 100, subscription 101, service
    102, client 103, waitable 104), the disabled group 11 (timer 110,
    subscription 111) and a group pointer 12 whose group is gone.
    Subscription 105 of group 10 is gone too, and so is node 2. *)
Module Demo.

Definition entity (k : EntityKind) : Entity := mkEntity k unregistered.
Definition sub : EntityKind := SubscriptionBase (mkSubscriptionFields "topic" [] None).

Definition w0 : World :=
  mkWorld
    {[ 1 := mkNodeBase false [10; 11; 12] 10 (mkGuardCondition None None None 0) ]}
    {[ 10 := mkCallbackGroup true [100] [101; 105] [102] [103] [104];
       11 := mkCallbackGroup false [110] [111] [] [] [] ]}
    {[ 100 := entity TimerBase; 101 := entity sub; 102 := entity ServiceBase;
       103 := entity ClientBase; 104 := entity OtherWaitable;
       110 := entity TimerBase; 111 := entity sub ]}
    ∅ (mkIPM 0 ∅ ∅) (mkRcl RCL_RET_OK RCL_RET_OK "").

Definition executor_A : EventsExecutorEntitiesCollector := mkCollector 900 90 ∅ [].
Definition executor_B : EventsExecutorEntitiesCollector := mkCollector 901 91 ∅ [].

Definition node1 : NodeBase :=
  mkNodeBase false [10; 11; 12] 10 (mkGuardCondition None None None 0).

(** The same store once node 1 has been added to executor 90 while group 11
    was enabled, and group 11 has been disabled since: the entities of both
    groups carry the push callback and both timers are in the timers
    manager.  The executor also tracks node 2, which is gone. *)
Definition wired (k : EntityKind) : Entity :=
  mkEntity k (mkRegistration (Some 90) (Some push_event)).

Definition node1_owned : NodeBase :=
  mkNodeBase true [10; 11; 12] 10
    (mkGuardCondition (Some 90) (Some push_event) (Some 900) 0).

Definition w1 : World :=
  mkWorld
    {[ 1 := node1_owned ]}
    {[ 10 := mkCallbackGroup true [100] [101; 105] [102] [103] [104];
       11 := mkCallbackGroup false [110] [111] [] [] [] ]}
    {[ 100 := entity TimerBase; 101 := wired sub; 102 := wired ServiceBase;
       103 := wired ClientBase; 104 := wired OtherWaitable;
       110 := entity TimerBase; 111 := wired sub ]}
    ∅ (mkIPM 0 ∅ ∅) (mkRcl RCL_RET_OK RCL_RET_OK "").

Definition executor_A1 : EventsExecutorEntitiesCollector :=
  mkCollector 900 90 {[100; 110]} [2; 1].

(** The store after executor 90 has been destroyed: node 1 is free again,
    but its entities still carry the push callback of executor 90. *)
Definition w0_stale : World :=
  mkWorld (nodes w0) (groups w0) (entities w1) (publishers w0) (ipm w0) (rcl w0).

(** The wired store again, with the subscription 101 and the timer 100 of
    the enabled group 10 also listed in the disabled group 11. *)
Definition w1_shared : World :=
  mkWorld (nodes w1)
    {[ 10 := mkCallbackGroup true [100] [101; 105] [102] [103] [104];
       11 := mkCallbackGroup false [110; 100] [111; 101] [] [] [] ]}
    (entities w1) (publishers w1) (ipm w1) (rcl w1).

(** The store with a publisher and a subscription set up for intra-process
    use: publisher 0 with id 0, subscription 120 with id 1 and its
    intra-process companion 121; both endpoints have the event handler 104. *)
Definition w2 : World :=
  mkWorld (nodes w0) (groups w0)
    (<[120 := entity (SubscriptionBase (mkSubscriptionFields "/topic" [104] (Some 1%Z)))]>
       (<[121 := entity (SubscriptionIntraProcess SharedPtrBuffer "/topic"
                           (mkQos RMW_QOS_POLICY_HISTORY_KEEP_LAST 10
                              RMW_QOS_POLICY_DURABILITY_VOLATILE))]>
          (entities w0)))
    {[ 0 := mkPublisherBase "/topic" [104] (Some 0%Z) ]}
    (mkIPM 2 {[ 0%Z := 0 ]} {[ 1%Z := 121 ]})
    (mkRcl RCL_RET_OK RCL_RET_OK "").

Definition node_topics : NodeTopics := mkNodeTopics 1.

Definition qos_keep_last_10 : rmw_qos_profile_t :=
  mkQos RMW_QOS_POLICY_HISTORY_KEEP_LAST 10 RMW_QOS_POLICY_DURABILITY_VOLATILE.
Definition qos_keep_last_0 : rmw_qos_profile_t :=
  mkQos RMW_QOS_POLICY_HISTORY_KEEP_LAST 0 RMW_QOS_POLICY_DURABILITY_VOLATILE.
Definition qos_keep_all : rmw_qos_profile_t :=
  mkQos RMW_QOS_POLICY_HISTORY_KEEP_ALL 10 RMW_QOS_POLICY_DURABILITY_VOLATILE.

Definition publisher_factory : PublisherFactory :=
  mkPublisherFactory (λ _ topic_name _, mkPublisherBase ("/" +:+ topic_name) [] None).

Definition subscription_factory : SubscriptionFactory :=
  mkSubscriptionFactory
    (λ _ topic_name _, mkSubscriptionFields ("/" +:+ topic_name) [] None)
    (λ buffer_type topic_name options,
       SubscriptionIntraProcess buffer_type topic_name (subscription_qos options)).

(** A store in which the transport layer refuses every call. *)
Definition w0_failing : World :=
  mkWorld (nodes w0) (groups w0) (entities w0) (publishers w0) (ipm w0)
    (mkRcl RCL_RET_ERROR RCL_RET_ERROR "guard condition is invalid").

End Demo.

(** ** What a wiring pass touches

    The entities that a pass over a node reaches, read off the store: the
    callback groups of the node that are alive and can be taken from, the
    timers of these groups that are alive, and the other entities of these
    groups. *)

Definition register_all (executor : option addr) (callback : option EventsExecutorCallback)
    (ptrs : list addr) (m : gmap addr Entity) : gmap addr Entity :=
  foldl (λ m p, alter (set_events_executor_callback executor callback) p m) m ptrs.

Definition live_ptrs (m : gmap addr Entity) (ptrs : list addr) : list addr :=
  filter (λ p, is_Some (m !! p)) ptrs.

Definition enabled_group (w : World) (weak_group : addr) : option CallbackGroup :=
  match groups w !! weak_group with
  | Some group => if can_be_taken_from group then Some group else None
  | None => None
  end.

Definition group_entity_ptrs (g : CallbackGroup) : list addr :=
  subscription_ptrs g ++ service_ptrs g ++ client_ptrs g ++ waitable_ptrs g.

Definition group_timers (w : World) (weak_group : addr) : list addr :=
  match enabled_group w weak_group with
  | Some group => live_ptrs (entities w) (timer_ptrs group)
  | None => []
  end.

Definition group_entities (w : World) (weak_group : addr) : list addr :=
  match enabled_group w weak_group with
  | Some group => group_entity_ptrs group
  | None => []
  end.

Definition node_timers (w : World) (node : addr) : list addr :=
  match nodes w !! node with
  | Some n => weak_group ← callback_groups n; group_timers w weak_group
  | None => []
  end.

Definition node_entities (w : World) (node : addr) : list addr :=
  match nodes w !! node with
  | Some n => weak_group ← callback_groups n; group_entities w weak_group
  | None => []
  end.

(** The same over the nodes a collector tracks. *)
Definition tracked_timers (s : CState) : list addr :=
  node ← weak_nodes_ s.1; node_timers s.2 node.

Definition tracked_entities (s : CState) : list addr :=
  node ← weak_nodes_ s.1; node_entities s.2 node.

(** A timer (an entity) is reached from a node through a group that is
    alive and enabled. *)
Definition timer_reached (w : World) (node timer : addr) : Prop :=
  ∃ n weak_group group,
    nodes w !! node = Some n ∧ weak_group ∈ callback_groups n ∧
    groups w !! weak_group = Some group ∧ can_be_taken_from group = true ∧
    timer ∈ timer_ptrs group ∧ is_Some (entities w !! timer).

Definition entity_reached (w : World) (node entity : addr) : Prop :=
  ∃ n weak_group group,
    nodes w !! node = Some n ∧ weak_group ∈ callback_groups n ∧
    groups w !! weak_group = Some group ∧ can_be_taken_from group = true ∧
    (entity ∈ subscription_ptrs group ∨ entity ∈ service_ptrs group ∨
     entity ∈ client_ptrs group ∨ entity ∈ waitable_ptrs group).

(** The state in which [add_node] calls the transport layer: the flag is
    set, the node is tracked and its entities are wired. *)
Definition add_node_wired (node_ptr : addr) (c : EventsExecutorEntitiesCollector) (w : World)
    : CState :=
  (with_timers_manager (λ tm, tm ∪ list_to_set (node_timers w node_ptr))
     (with_weak_nodes (λ l, l ++ [node_ptr]) c),
   with_entities
     (register_all (Some (associated_executor_ c)) (Some push_event)
        (node_entities w node_ptr))
     (with_nodes (alter (set_has_executor true) node_ptr) w)).

(** The state [remove_node] returns in when it finds the node at index [i]
    of the tracked list and the transport layer accepts the unbinding. *)
Definition remove_node_unwired (node_ptr : addr) (i : nat)
    (c : EventsExecutorEntitiesCollector) (w : World) : CState :=
  (with_weak_nodes (delete i)
     (with_timers_manager (λ tm, tm ∖ list_to_set (node_timers w node_ptr)) c),
   with_entities (register_all None None (node_entities w node_ptr))
     (with_nodes (alter (set_guard_condition_callback None None None) node_ptr) w)).

(** The group an endpoint is assigned to: the explicit group when it
    belongs to the node, the default group of the node when none is given. *)
Definition assigned_group (n : NodeBase) (callback_group : option addr) (w : World)
    : option addr :=
  match callback_group with
  | Some group => if callback_group_in_node n group w then Some group else None
  | None => Some (default_callback_group n)
  end.

Definition group_push_waitables (ps : list addr) (g : CallbackGroup) : CallbackGroup :=
  mkCallbackGroup (can_be_taken_from g) (timer_ptrs g) (subscription_ptrs g)
    (service_ptrs g) (client_ptrs g) (waitable_ptrs g ++ ps).

(** What the last lines of [add_publisher] and [add_subscription] leave:
    the guard condition of the node triggered and a normal return, or, when
    the transport layer refuses, the runtime error whose text ends with the
    error string of the transport layer. *)
Definition notified (nt : NodeTopics) (n : NodeBase) (w : World) (what : string)
    (r : outcome unit * World) : Prop :=
  (rcl_trigger_ret (rcl w) = RCL_RET_OK →
     r.1 = Ok tt ∧ nodes r.2 !! node_base_ nt = Some (trigger_guard_condition n)) ∧
  (rcl_trigger_ret (rcl w) ≠ RCL_RET_OK →
     r.1 = Throw (runtime_error (what +:+ rmw_error_string (rcl w))) ∧
     nodes r.2 = nodes w).

(** * Proofs *)

(** ** The monad *)

Lemma bind_Ok {S A B} (m : M S A) (f : A → M S B) s a s' :
  m s = (Ok a, s') → (m ≫= f) s = f a s'.
Proof. intros H. unfold mbind, M_bind. by rewrite H. Qed.

Lemma bind_Throw {S A B} (m : M S A) (f : A → M S B) s e s' :
  m s = (Throw e, s') → (m ≫= f) s = (Throw e, s').
Proof. intros H. unfold mbind, M_bind. by rewrite H. Qed.

Lemma bind_gets {S A B} (g : S → A) (f : A → M S B) s :
  (gets g ≫= f) s = f (g s) s.
Proof. done. Qed.

Lemma bind_modify {S B} (g : S → S) (f : unit → M S B) s :
  (modify g ≫= f) s = f tt (g s).
Proof. done. Qed.

Lemma bind_call {S A B} (g : S → A * S) (f : A → M S B) s :
  (call g ≫= f) s = f (g s).1 (g s).2.
Proof. unfold mbind, M_bind, call. by destruct (g s). Qed.

(** Runs the monadic code of a goal as far as it is determined. *)
Ltac run_M :=
  unfold mbind, M_bind, mret, M_ret, call, modify, gets, throw, undefined;
  cbn -[fresh].

(** ** Registrations *)

Lemma register_all_cons ex cb a l m :
  register_all ex cb (a :: l) m
  = register_all ex cb l (alter (set_events_executor_callback ex cb) a m).
Proof. done. Qed.

Lemma register_all_app ex cb l1 l2 m :
  register_all ex cb (l1 ++ l2) m = register_all ex cb l2 (register_all ex cb l1 m).
Proof. apply foldl_app. Qed.

Lemma lookup_register_all ex cb l m p :
  register_all ex cb l m !! p
  = if decide (p ∈ l) then set_events_executor_callback ex cb <$> m !! p else m !! p.
Proof.
  revert m. induction l as [|a l IH]; intros m.
  - destruct (decide (p ∈ [])) as [H|H]; [by apply elem_of_nil in H|done].
  - rewrite register_all_cons, IH, lookup_alter.
    destruct (decide (p ∈ l)) as [Hin|Hin], (decide (p ∈ a :: l)) as [Hin'|Hin'],
      (decide (a = p)) as [->|Hne]; try done.
    + by destruct (m !! p).
    + exfalso. apply Hin'. by right.
    + exfalso. apply Hin'. by right.
    + apply elem_of_cons in Hin' as [->|?]; done.
    + exfalso. apply Hin'. by left.
Qed.

Lemma register_all_is_Some ex cb l m p :
  is_Some (register_all ex cb l m !! p) ↔ is_Some (m !! p).
Proof. rewrite lookup_register_all. case_decide; [apply fmap_is_Some|done]. Qed.

Lemma live_ptrs_register_all ex cb l m ptrs :
  live_ptrs (register_all ex cb l m) ptrs = live_ptrs m ptrs.
Proof. apply list_filter_iff. intros p. apply register_all_is_Some. Qed.

Lemma register_all_idem ex cb l m :
  register_all ex cb l (register_all ex cb l m) = register_all ex cb l m.
Proof.
  apply map_eq. intros p. rewrite !lookup_register_all.
  case_decide; [|done]. by destruct (m !! p).
Qed.

(** ** The walks over the pointers of a group *)

Lemma find_ptrs_if_entity ex cb ptrs (c : EventsExecutorEntitiesCollector) (w : World) :
  find_ptrs_if snd (entity_lambda ex cb) ptrs (c, w)
  = (None, (c, with_entities (register_all ex cb ptrs) w)).
Proof.
  revert w. induction ptrs as [|a ptrs IH]; intros w; simpl.
  - by destruct w.
  - unfold lock_entity. destruct (entities w !! a) eqn:E; simpl.
    + by rewrite IH.
    + rewrite IH. unfold with_entities. simpl.
      by rewrite (alter_id' _ _ _ E).
Qed.

Lemma find_ptrs_if_add_timer ptrs (c : EventsExecutorEntitiesCollector) (w : World) :
  find_ptrs_if snd (timer_lambda TimersManager.add_timer) ptrs (c, w)
  = (None, (with_timers_manager (λ tm, tm ∪ list_to_set (live_ptrs (entities w) ptrs)) c, w)).
Proof.
  revert c. induction ptrs as [|a ptrs IH]; intros c; simpl.
  - destruct c. unfold with_timers_manager, live_ptrs. simpl.
    by rewrite (right_id_L ∅ (∪)).
  - unfold lock_entity, live_ptrs. rewrite filter_cons.
    destruct (entities w !! a) eqn:E; simpl.
    + rewrite IH.
      unfold with_timers_manager, TimersManager.add_timer, live_ptrs. simpl.
      do 3 f_equal. set_solver.
    + by rewrite IH.
Qed.

Lemma find_ptrs_if_remove_timer ptrs (c : EventsExecutorEntitiesCollector) (w : World) :
  find_ptrs_if snd (timer_lambda TimersManager.remove_timer) ptrs (c, w)
  = (None, (with_timers_manager (λ tm, tm ∖ list_to_set (live_ptrs (entities w) ptrs)) c, w)).
Proof.
  revert c. induction ptrs as [|a ptrs IH]; intros c; simpl.
  - destruct c. unfold with_timers_manager, live_ptrs. simpl.
    f_equal. f_equal. f_equal. set_solver.
  - unfold lock_entity, live_ptrs. rewrite filter_cons.
    destruct (entities w !! a) eqn:E; simpl.
    + rewrite IH.
      unfold with_timers_manager, TimersManager.remove_timer, live_ptrs. simpl.
      do 3 f_equal. set_solver.
    + by rewrite IH.
Qed.

(** ** Closed form of a pass

    A pass folds a step over a list of pointers; each step adds to (or takes
    from) the timers manager a set of timers and registers one callback on a
    list of entities, both read off the store; and what a step reads is not
    changed by the registrations of the steps before it. *)

Section pass.
Context {K : Type}.
Variable step : K → CState → CState.
Variable op : gset addr → gset addr → gset addr.
Variable ex : EventsExecutorEntitiesCollector → option addr.
Variable cb : option EventsExecutorCallback.
Variables T E : World → K → list addr.

Hypothesis op_empty : ∀ tm, op tm ∅ = tm.
Hypothesis op_union : ∀ tm A B, op (op tm A) B = op tm (A ∪ B).
Hypothesis ex_stable : ∀ f c, ex (with_timers_manager f c) = ex c.
Hypothesis T_stable : ∀ e c l w k, T (with_entities (register_all e c l) w) k = T w k.
Hypothesis E_stable : ∀ e c l w k, E (with_entities (register_all e c l) w) k = E w k.
Hypothesis step_closed : ∀ k c w,
  step k (c, w)
  = (with_timers_manager (λ tm, op tm (list_to_set (T w k))) c,
     with_entities (register_all (ex c) cb (E w k)) w).

Lemma foldl_pass ks c w :
  foldl (λ s k, step k s) (c, w) ks
  = (with_timers_manager (λ tm, op tm (list_to_set (ks ≫= T w))) c,
     with_entities (register_all (ex c) cb (ks ≫= E w)) w).
Proof using All.
  revert c w. induction ks as [|k ks IH]; intros c w.
  - destruct c, w. unfold with_timers_manager, with_entities. simpl.
    by rewrite op_empty.
  - cbn [foldl]. rewrite step_closed, IH, ex_stable, !bind_cons. f_equal.
    + destruct c. unfold with_timers_manager. cbn [timers_manager_ this associated_executor_ weak_nodes_].
      f_equal. rewrite op_union, list_to_set_app_L. do 3 f_equal.
      apply list_bind_ext; [|done]. intros k'. apply T_stable.
    + unfold with_entities. cbn [nodes groups entities publishers ipm rcl]. f_equal.
      rewrite register_all_app. f_equal.
      apply list_bind_ext; [|done]. intros k'. apply E_stable.
Qed.
End pass.

(** ** Closed forms of the collector's passes *)

Lemma with_timers_manager_union_empty c :
  with_timers_manager (λ tm, tm ∪ list_to_set []) c = c.
Proof. destruct c. unfold with_timers_manager. simpl. f_equal. set_solver. Qed.

Lemma with_timers_manager_difference_empty c :
  with_timers_manager (λ tm, tm ∖ list_to_set []) c = c.
Proof. destruct c. unfold with_timers_manager. simpl. f_equal. set_solver. Qed.

Lemma with_entities_register_nil ex cb w :
  with_entities (register_all ex cb []) w = w.
Proof. by destruct w. Qed.

Lemma group_timers_stable ex cb l w weak_group :
  group_timers (with_entities (register_all ex cb l) w) weak_group = group_timers w weak_group.
Proof.
  unfold group_timers, enabled_group. simpl.
  destruct (groups w !! weak_group) as [group|]; [|done].
  destruct (can_be_taken_from group); [|done].
  apply live_ptrs_register_all.
Qed.

Lemma group_entities_stable ex cb l w weak_group :
  group_entities (with_entities (register_all ex cb l) w) weak_group
  = group_entities w weak_group.
Proof. done. Qed.

Lemma node_timers_stable ex cb l w node :
  node_timers (with_entities (register_all ex cb l) w) node = node_timers w node.
Proof.
  unfold node_timers. simpl. destruct (nodes w !! node) as [n|]; [|done].
  apply list_bind_ext; [|done]. intros g. apply group_timers_stable.
Qed.

Lemma node_entities_stable ex cb l w node :
  node_entities (with_entities (register_all ex cb l) w) node = node_entities w node.
Proof. done. Qed.

Lemma set_group_callbacks_closed weak_group c w :
  set_group_callbacks weak_group (c, w)
  = (with_timers_manager (λ tm, tm ∪ list_to_set (group_timers w weak_group)) c,
     with_entities
       (register_all (Some (associated_executor_ c)) (Some push_event)
          (group_entities w weak_group)) w).
Proof.
  unfold set_group_callbacks, group_timers, group_entities, enabled_group. simpl.
  destruct (groups w !! weak_group) as [group|];
    [|by rewrite with_timers_manager_union_empty, with_entities_register_nil].
  destruct (can_be_taken_from group); simpl;
    [|by rewrite with_timers_manager_union_empty, with_entities_register_nil].
  unfold find_timer_ptrs_if, find_subscription_ptrs_if, find_service_ptrs_if,
    find_client_ptrs_if, find_waitable_ptrs_if.
  rewrite find_ptrs_if_add_timer. cbn [snd].
  repeat (rewrite find_ptrs_if_entity; cbn [snd]). f_equal.
  unfold group_entity_ptrs, with_entities. simpl.
  by rewrite !register_all_app.
Qed.

Lemma unset_group_callbacks_closed weak_group c w :
  unset_group_callbacks weak_group (c, w)
  = (with_timers_manager (λ tm, tm ∖ list_to_set (group_timers w weak_group)) c,
     with_entities (register_all None None (group_entities w weak_group)) w).
Proof.
  unfold unset_group_callbacks, group_timers, group_entities, enabled_group. simpl.
  destruct (groups w !! weak_group) as [group|];
    [|by rewrite with_timers_manager_difference_empty, with_entities_register_nil].
  destruct (can_be_taken_from group); simpl;
    [|by rewrite with_timers_manager_difference_empty, with_entities_register_nil].
  unfold find_timer_ptrs_if, find_subscription_ptrs_if, find_service_ptrs_if,
    find_client_ptrs_if, find_waitable_ptrs_if.
  rewrite find_ptrs_if_remove_timer. cbn [snd].
  repeat (rewrite find_ptrs_if_entity; cbn [snd]). f_equal.
  unfold group_entity_ptrs, with_entities. simpl.
  by rewrite !register_all_app.
Qed.

Lemma union_union_L (tm A B : gset addr) : tm ∪ A ∪ B = tm ∪ (A ∪ B).
Proof. set_solver. Qed.

Lemma difference_difference_union_L (tm A B : gset addr) : tm ∖ A ∖ B = tm ∖ (A ∪ B).
Proof. set_solver. Qed.

Lemma set_entities_callbacks_closed node c w :
  set_entities_callbacks node (c, w)
  = (with_timers_manager (λ tm, tm ∪ list_to_set (node_timers w node)) c,
     with_entities
       (register_all (Some (associated_executor_ c)) (Some push_event)
          (node_entities w node)) w).
Proof.
  unfold set_entities_callbacks, node_timers, node_entities. simpl.
  destruct (nodes w !! node) as [n|];
    [|by rewrite with_timers_manager_union_empty, with_entities_register_nil].
  apply (foldl_pass set_group_callbacks (∪) (λ c, Some (associated_executor_ c))
           (Some push_event) group_timers group_entities).
  - intros tm. set_solver.
  - apply union_union_L.
  - done.
  - apply group_timers_stable.
  - apply group_entities_stable.
  - apply set_group_callbacks_closed.
Qed.

Lemma unset_entities_callbacks_closed n c w :
  foldl (λ s weak_group, unset_group_callbacks weak_group s) (c, w) (callback_groups n)
  = (with_timers_manager
       (λ tm, tm ∖ list_to_set (callback_groups n ≫= group_timers w)) c,
     with_entities
       (register_all None None (callback_groups n ≫= group_entities w)) w).
Proof.
  apply (foldl_pass unset_group_callbacks (∖) (λ _, None) None group_timers group_entities).
  - intros tm. set_solver.
  - apply difference_difference_union_L.
  - done.
  - apply group_timers_stable.
  - apply group_entities_stable.
  - apply unset_group_callbacks_closed.
Qed.

Lemma execute_closed c w :
  execute (c, w)
  = (with_timers_manager (λ _, list_to_set (tracked_timers (c, w))) c,
     with_entities
       (register_all (Some (associated_executor_ c)) (Some push_event)
          (tracked_entities (c, w))) w).
Proof.
  unfold execute, tracked_timers, tracked_entities. cbn [fst snd].
  rewrite (foldl_pass
             (λ weak_node s,
                match nodes s.2 !! weak_node with
                | Some _ => set_entities_callbacks weak_node s
                | None => s
                end)
             (∪) (λ c, Some (associated_executor_ c)) (Some push_event)
             node_timers node_entities).
  - destruct c. unfold with_timers_manager, TimersManager.clear_all. simpl.
    do 2 f_equal. set_solver.
  - intros tm. set_solver.
  - apply union_union_L.
  - done.
  - apply node_timers_stable.
  - apply node_entities_stable.
  - intros k c' w'. cbn [snd]. rewrite set_entities_callbacks_closed.
    unfold node_timers, node_entities.
    destruct (nodes w' !! k); [done|].
    by rewrite with_timers_manager_union_empty, with_entities_register_nil.
Qed.

(** ** What the closed forms contain *)

Lemma elem_of_group_timers w weak_group t :
  t ∈ group_timers w weak_group ↔
  ∃ group, groups w !! weak_group = Some group ∧ can_be_taken_from group = true ∧
           t ∈ timer_ptrs group ∧ is_Some (entities w !! t).
Proof.
  unfold group_timers, enabled_group.
  destruct (groups w !! weak_group) as [group|]; [|split; [by intros ?%elem_of_nil|naive_solver]].
  destruct (can_be_taken_from group) eqn:Hcan.
  - unfold live_ptrs. rewrite list_elem_of_filter. naive_solver.
  - split; [by intros ?%elem_of_nil|]. intros (g & [= <-] & ? & _). congruence.
Qed.

Lemma elem_of_group_entities w weak_group e :
  e ∈ group_entities w weak_group ↔
  ∃ group, groups w !! weak_group = Some group ∧ can_be_taken_from group = true ∧
           (e ∈ subscription_ptrs group ∨ e ∈ service_ptrs group ∨
            e ∈ client_ptrs group ∨ e ∈ waitable_ptrs group).
Proof.
  unfold group_entities, enabled_group.
  destruct (groups w !! weak_group) as [group|]; [|split; [by intros ?%elem_of_nil|naive_solver]].
  destruct (can_be_taken_from group) eqn:Hcan.
  - unfold group_entity_ptrs. rewrite !elem_of_app. naive_solver.
  - split; [by intros ?%elem_of_nil|]. intros (g & [= <-] & ? & _). congruence.
Qed.

Lemma elem_of_node_timers w node t :
  t ∈ node_timers w node ↔ timer_reached w node t.
Proof.
  unfold node_timers, timer_reached.
  destruct (nodes w !! node) as [n|]; [|split; [by intros ?%elem_of_nil|naive_solver]].
  rewrite list_elem_of_bind. setoid_rewrite elem_of_group_timers. naive_solver.
Qed.

Lemma elem_of_node_entities w node e :
  e ∈ node_entities w node ↔ entity_reached w node e.
Proof.
  unfold node_entities, entity_reached.
  destruct (nodes w !! node) as [n|]; [|split; [by intros ?%elem_of_nil|naive_solver]].
  rewrite list_elem_of_bind. setoid_rewrite elem_of_group_entities. naive_solver.
Qed.

Lemma elem_of_tracked_timers c w t :
  t ∈ tracked_timers (c, w) ↔ ∃ node, node ∈ weak_nodes_ c ∧ timer_reached w node t.
Proof.
  unfold tracked_timers. rewrite list_elem_of_bind.
  setoid_rewrite elem_of_node_timers. naive_solver.
Qed.

Lemma elem_of_tracked_entities c w e :
  e ∈ tracked_entities (c, w) ↔ ∃ node, node ∈ weak_nodes_ c ∧ entity_reached w node e.
Proof.
  unfold tracked_entities. rewrite list_elem_of_bind.
  setoid_rewrite elem_of_node_entities. naive_solver.
Qed.

(** ** [execute] *)

(** C4. [execute] empties the timers manager and then walks the tracked
    nodes: afterwards the timers manager holds exactly the live timers of the
    groups that are alive and can be taken from, of the tracked nodes that
    are alive; every subscription, service, client and waitable of these
    groups carries the push callback of the collector's executor; nothing
    else changes, and nodes or groups that are gone or disabled contribute
    nothing (the function is total: no outcome is an error). *)
Theorem execute_rebuilds_everything (c : EventsExecutorEntitiesCollector) (w : World) :
  (∀ t, t ∈ timers_manager_ (execute (c, w)).1 ↔
        ∃ node, node ∈ weak_nodes_ c ∧ timer_reached w node t) ∧
  (∀ e, (∃ node, node ∈ weak_nodes_ c ∧ entity_reached w node e) →
        entities (execute (c, w)).2 !! e
        = (λ x, mkEntity (kind x)
                  (mkRegistration (Some (associated_executor_ c)) (Some push_event)))
            <$> entities w !! e) ∧
  (∀ e, ¬ (∃ node, node ∈ weak_nodes_ c ∧ entity_reached w node e) →
        entities (execute (c, w)).2 !! e = entities w !! e) ∧
  weak_nodes_ (execute (c, w)).1 = weak_nodes_ c ∧
  associated_executor_ (execute (c, w)).1 = associated_executor_ c ∧
  nodes (execute (c, w)).2 = nodes w ∧
  groups (execute (c, w)).2 = groups w.
Proof.
  rewrite execute_closed. cbn [fst snd].
  split_and!; try done.
  - intros t. unfold with_timers_manager. cbn [timers_manager_].
    by rewrite elem_of_list_to_set, elem_of_tracked_timers.
  - intros e He. unfold with_entities. cbn [entities].
    rewrite lookup_register_all, decide_True; [done|].
    by apply elem_of_tracked_entities.
  - intros e He. unfold with_entities. cbn [entities].
    rewrite lookup_register_all, decide_False; [done|].
    by rewrite elem_of_tracked_entities.
Qed.

Lemma tracked_timers_stable f ex cb l c w :
  tracked_timers (with_timers_manager f c, with_entities (register_all ex cb l) w)
  = tracked_timers (c, w).
Proof.
  unfold tracked_timers. cbn [fst snd].
  apply list_bind_ext; [|done]. intros node. apply node_timers_stable.
Qed.

Lemma tracked_entities_stable f ex cb l c w :
  tracked_entities (with_timers_manager f c, with_entities (register_all ex cb l) w)
  = tracked_entities (c, w).
Proof. done. Qed.

(** C7. The rebuild is idempotent: a second [execute] right after the first
    leaves the collector (its timers manager) and the store (the
    registrations of all entities) as the first left them. *)
Theorem execute_idempotent (s : CState) : execute (execute s) = execute s.
Proof.
  destruct s as [c w].
  rewrite (execute_closed c w), execute_closed.
  rewrite tracked_timers_stable, tracked_entities_stable.
  unfold with_timers_manager, with_entities. cbn. f_equal. f_equal.
  apply register_all_idem.
Qed.

(** ** The destructor *)

Lemma destructor_nodes (l : list addr) (w : World) :
  let w' := foldl (λ w weak_node,
                     match nodes w !! weak_node with
                     | Some _ => with_nodes (alter (set_has_executor false) weak_node) w
                     | None => w
                     end) w l in
  (∀ node, nodes w' !! node
           = if decide (node ∈ l) then set_has_executor false <$> nodes w !! node
             else nodes w !! node) ∧
  groups w' = groups w ∧ entities w' = entities w ∧ publishers w' = publishers w ∧
  ipm w' = ipm w ∧ rcl w' = rcl w.
Proof.
  revert w. induction l as [|a l IH]; intros w; cbn [foldl].
  - split_and!; done.
  - set (w1 := match nodes w !! a with
               | Some _ => with_nodes (alter (set_has_executor false) a) w
               | None => w
               end).
    assert (Hw1 : nodes w1 = alter (set_has_executor false) a (nodes w) ∧
                  groups w1 = groups w ∧ entities w1 = entities w ∧
                  publishers w1 = publishers w ∧ ipm w1 = ipm w ∧ rcl w1 = rcl w).
    { subst w1. destruct (nodes w !! a) eqn:E; [done|].
      split_and!; try done. by rewrite alter_id'. }
    destruct Hw1 as (Hn & Hg & He & Hp & Hi & Hr).
    destruct (IH w1) as (IHn & IHg & IHe & IHp & IHi & IHr).
    cbv zeta. split_and!; try congruence.
    intros node. rewrite IHn, Hn, lookup_alter.
    destruct (decide (node ∈ l)) as [Hin|Hin], (decide (node ∈ a :: l)) as [Hin'|Hin'],
      (decide (a = node)) as [->|Hne]; try done.
    + by destruct (nodes w !! node).
    + exfalso. apply Hin'. by right.
    + exfalso. apply Hin'. by right.
    + apply elem_of_cons in Hin' as [->|?]; done.
    + exfalso. apply Hin'. by left.
Qed.

(** C8. After the destructor the tracked set is empty; every node that was
    tracked and is still alive has its ownership flag cleared and is
    otherwise as before; a tracked node that is gone stays gone; the nodes
    that were not tracked, and the rest of the store, are as before. *)
Theorem destructor_disassociates_nodes (c : EventsExecutorEntitiesCollector) (w : World) :
  weak_nodes_ (destructor (c, w)).1 = [] ∧
  (∀ node n, node ∈ weak_nodes_ c → nodes w !! node = Some n →
     nodes (destructor (c, w)).2 !! node
     = Some (mkNodeBase false (callback_groups n) (default_callback_group n)
               (notify_guard_condition n))) ∧
  (∀ node, nodes w !! node = None → nodes (destructor (c, w)).2 !! node = None) ∧
  (∀ node, node ∉ weak_nodes_ c → nodes (destructor (c, w)).2 !! node = nodes w !! node) ∧
  groups (destructor (c, w)).2 = groups w ∧
  entities (destructor (c, w)).2 = entities w ∧
  timers_manager_ (destructor (c, w)).1 = timers_manager_ c.
Proof.
  unfold destructor. cbn [fst snd].
  destruct (destructor_nodes (weak_nodes_ c) w) as (Hn & Hg & He & _).
  cbv zeta in Hn, Hg, He.
  split_and!; try done.
  - intros node n Hin Hnode. rewrite Hn, decide_True, Hnode; done.
  - intros node Hnode. rewrite Hn, Hnode. by case_decide.
  - intros node Hin. by rewrite Hn, decide_False.
Qed.

(** ** [add_node] *)

Lemma set_has_executor_id b n : associated_with_executor n = b → set_has_executor b n = n.
Proof. intros <-. by destruct n. Qed.

Lemma node_timers_with_nodes f p w node :
  (∀ n, callback_groups (f n) = callback_groups n) →
  node_timers (with_nodes (alter f p) w) node = node_timers w node.
Proof.
  intros Hf. unfold node_timers. cbn [nodes with_nodes]. rewrite lookup_alter.
  case_decide as Hp; [subst p|done].
  destruct (nodes w !! node) as [n|]; [|done]. simpl. by rewrite Hf.
Qed.

Lemma node_entities_with_nodes f p w node :
  (∀ n, callback_groups (f n) = callback_groups n) →
  node_entities (with_nodes (alter f p) w) node = node_entities w node.
Proof.
  intros Hf. unfold node_entities. cbn [nodes with_nodes]. rewrite lookup_alter.
  case_decide as Hp; [subst p|done].
  destruct (nodes w !! node) as [n|]; [|done]. simpl. by rewrite Hf.
Qed.

Lemma add_node_owned c w node_ptr n :
  nodes w !! node_ptr = Some n →
  associated_with_executor n = true →
  add_node node_ptr (c, w)
  = (Throw (runtime_error "Node has already been added to an executor."), (c, w)).
Proof.
  intros Hn Hflag. unfold add_node. rewrite bind_gets. cbn [snd]. rewrite Hn.
  rewrite bind_modify, Hflag. unfold throw. cbn [fst snd]. do 2 f_equal.
  destruct w. unfold with_nodes. cbn. f_equal.
  apply alter_id. intros n' Hn'. cbn in Hn. rewrite Hn in Hn'. injection Hn' as <-.
  by apply set_has_executor_id.
Qed.

Lemma add_node_fresh c w node_ptr n :
  nodes w !! node_ptr = Some n →
  associated_with_executor n = false →
  add_node node_ptr (c, w)
  = if decide (rcl_set_callback_ret (rcl w) = RCL_RET_OK)
    then (Ok tt,
          ((add_node_wired node_ptr c w).1,
           with_nodes
             (alter (set_guard_condition_callback
                       (Some (associated_executor_ c)) (Some push_event) (Some (this c)))
                node_ptr)
             (add_node_wired node_ptr c w).2))
    else (Throw (runtime_error "Couldn't set node guard condition callback"),
          add_node_wired node_ptr c w).
Proof.
  intros Hn Hflag. unfold add_node. rewrite bind_gets. cbn [snd]. rewrite Hn.
  rewrite bind_modify, Hflag, !bind_modify. cbn [fst snd].
  rewrite set_entities_callbacks_closed.
  rewrite node_timers_with_nodes, node_entities_with_nodes by done.
  rewrite bind_call. unfold add_node_wired.
  unfold rcl_guard_condition_set_events_executor_callback. cbn [fst snd rcl with_entities with_nodes].
  destruct (decide (rcl_set_callback_ret (rcl w) = RCL_RET_OK)) as [Hret|Hret]; cbn [fst snd].
  - by rewrite decide_False by (intros H; by apply H).
  - by rewrite decide_True.
Qed.

Lemma add_node_wired_spec c w node_ptr n :
  nodes w !! node_ptr = Some n →
  let s := add_node_wired node_ptr c w in
  nodes s.2 !! node_ptr
  = Some (mkNodeBase true (callback_groups n) (default_callback_group n)
            (notify_guard_condition n)) ∧
  weak_nodes_ s.1 = weak_nodes_ c ++ [node_ptr] ∧
  (∀ t, t ∈ timers_manager_ s.1 ↔ t ∈ timers_manager_ c ∨ timer_reached w node_ptr t) ∧
  (∀ e, entity_reached w node_ptr e →
        entities s.2 !! e
        = set_events_executor_callback (Some (associated_executor_ c)) (Some push_event)
            <$> entities w !! e) ∧
  (∀ e, ¬ entity_reached w node_ptr e → entities s.2 !! e = entities w !! e).
Proof.
  intros Hn. unfold add_node_wired. cbn.
  split_and!.
  - by rewrite lookup_alter_eq, Hn.
  - done.
  - intros t. by rewrite elem_of_union, elem_of_list_to_set, elem_of_node_timers.
  - intros e He. rewrite lookup_register_all, decide_True; [done|].
    by apply elem_of_node_entities.
  - intros e He. rewrite lookup_register_all, decide_False; [done|].
    by rewrite elem_of_node_entities.
Qed.

(** C5. [add_node] on a node whose ownership flag is set throws the usage
    error and changes nothing (the flag stays set, the tracked set is as it
    was).  On a node whose flag is not set it sets the flag, appends the node
    to the tracked set, wires the timers and entities of the node, and binds
    the node's guard condition to the push callback of the executor; when the
    binding is refused by the transport layer it throws the runtime error. *)
Theorem add_node_contract (c : EventsExecutorEntitiesCollector) (w : World)
    (node_ptr : addr) (n : NodeBase) :
  nodes w !! node_ptr = Some n →
  (associated_with_executor n = true →
     add_node node_ptr (c, w)
     = (Throw (runtime_error "Node has already been added to an executor."), (c, w))) ∧
  (associated_with_executor n = false →
     rcl_set_callback_ret (rcl w) = RCL_RET_OK →
     (add_node node_ptr (c, w)).1 = Ok tt ∧
     nodes (add_node node_ptr (c, w)).2.2 !! node_ptr
     = Some (mkNodeBase true (callback_groups n) (default_callback_group n)
               (mkGuardCondition (Some (associated_executor_ c)) (Some push_event)
                  (Some (this c)) (gc_triggered (notify_guard_condition n)))) ∧
     weak_nodes_ (add_node node_ptr (c, w)).2.1 = weak_nodes_ c ++ [node_ptr] ∧
     (∀ t, t ∈ timers_manager_ (add_node node_ptr (c, w)).2.1 ↔
           t ∈ timers_manager_ c ∨ timer_reached w node_ptr t) ∧
     (∀ e, entity_reached w node_ptr e →
           entities (add_node node_ptr (c, w)).2.2 !! e
           = (λ x, mkEntity (kind x)
                     (mkRegistration (Some (associated_executor_ c)) (Some push_event)))
               <$> entities w !! e)) ∧
  (associated_with_executor n = false →
     rcl_set_callback_ret (rcl w) ≠ RCL_RET_OK →
     (add_node node_ptr (c, w)).1
     = Throw (runtime_error "Couldn't set node guard condition callback")).
Proof.
  intros Hn. split_and!.
  - by apply add_node_owned.
  - intros Hflag Hret. rewrite (add_node_fresh c w node_ptr n Hn Hflag).
    rewrite decide_True by done. cbn [fst snd].
    destruct (add_node_wired_spec c w node_ptr n Hn) as (Hnode & Hweak & Htm & Hreg & _).
    cbv zeta in Hnode, Hweak, Htm, Hreg.
    split_and!; try done.
    cbn [nodes with_nodes]. by rewrite lookup_alter_eq, Hnode.
  - intros Hflag Hret. rewrite (add_node_fresh c w node_ptr n Hn Hflag).
    by rewrite decide_False.
Qed.

(** C9. When the binding of the guard condition is refused, the runtime
    error leaves [add_node] after the node has been appended to the tracked
    set, its entities have been wired and its flag has been set, and none of
    this is undone: the node stays tracked and its flag stays set. *)
Theorem add_node_binding_failure_not_rolled_back
    (c : EventsExecutorEntitiesCollector) (w : World) (node_ptr : addr) (n : NodeBase) :
  nodes w !! node_ptr = Some n →
  associated_with_executor n = false →
  rcl_set_callback_ret (rcl w) ≠ RCL_RET_OK →
  (add_node node_ptr (c, w)).1
  = Throw (runtime_error "Couldn't set node guard condition callback") ∧
  nodes (add_node node_ptr (c, w)).2.2 !! node_ptr
  = Some (mkNodeBase true (callback_groups n) (default_callback_group n)
            (notify_guard_condition n)) ∧
  weak_nodes_ (add_node node_ptr (c, w)).2.1 = weak_nodes_ c ++ [node_ptr] ∧
  (∀ t, t ∈ timers_manager_ (add_node node_ptr (c, w)).2.1 ↔
        t ∈ timers_manager_ c ∨ timer_reached w node_ptr t) ∧
  (∀ e, entity_reached w node_ptr e →
        entities (add_node node_ptr (c, w)).2.2 !! e
        = (λ x, mkEntity (kind x)
                  (mkRegistration (Some (associated_executor_ c)) (Some push_event)))
            <$> entities w !! e).
Proof.
  intros Hn Hflag Hret. rewrite (add_node_fresh c w node_ptr n Hn Hflag).
  rewrite decide_False by done. cbn [fst snd].
  destruct (add_node_wired_spec c w node_ptr n Hn) as (Hnode & Hweak & Htm & Hreg & _).
  done.
Qed.

(** ** [remove_node] *)

Lemma lock_node_alive w p n : nodes w !! p = Some n → lock_node p w = Some p.
Proof. intros H. unfold lock_node. by rewrite H. Qed.

Lemma lock_node_other w p q : p ≠ q → lock_node p w ≠ Some q.
Proof. intros Hne. unfold lock_node. destruct (nodes w !! p); congruence. Qed.

Lemma lock_node_dead w p : nodes w !! p = None → lock_node p w = None.
Proof. intros H. unfold lock_node. by rewrite H. Qed.

Lemma remove_node_from_found node_ptr n i l1 l2 c w :
  node_ptr ∉ l1 →
  nodes w !! node_ptr = Some n →
  remove_node_from node_ptr i (l1 ++ node_ptr :: l2) (c, w)
  = if decide (rcl_set_callback_ret (rcl w) = RCL_RET_OK)
    then (Ok tt, remove_node_unwired node_ptr (i + length l1) c w)
    else (Throw (runtime_error "Couldn't set guard condition callback"), (c, w)).
Proof.
  intros Hnotin Hn. revert i. induction l1 as [|a l1 IH]; intros i.
  - cbn [app remove_node_from]. rewrite bind_gets. cbn [snd].
    rewrite (lock_node_alive _ _ _ Hn), bool_decide_eq_true_2 by done.
    rewrite bind_gets. cbn [snd]. rewrite Hn.
    rewrite bind_call. unfold rcl_guard_condition_set_events_executor_callback. cbn [snd].
    destruct (decide (rcl_set_callback_ret (rcl w) = RCL_RET_OK)) as [Hret|Hret];
      cbn [fst snd].
    + rewrite decide_False by (intros H; by apply H).
      rewrite bind_gets. cbn [snd nodes with_nodes].
      rewrite lookup_alter_eq, Hn. cbn [fmap option_fmap option_map].
      rewrite bind_modify. unfold modify. cbn [callback_groups set_guard_condition_callback].
      rewrite unset_entities_callbacks_closed.
      unfold remove_node_unwired, node_timers, node_entities. rewrite Hn.
      cbn [length]. by rewrite Nat.add_0_r.
    + by rewrite decide_True.
  - apply not_elem_of_cons in Hnotin as [Hne Hnotin].
    cbn [app remove_node_from]. rewrite bind_gets. cbn [snd].
    rewrite (lock_node_alive _ _ _ Hn).
    rewrite bool_decide_eq_false_2 by (apply lock_node_other; congruence).
    rewrite (IH Hnotin). cbn [length]. by rewrite Nat.add_succ_r.
Qed.


(** C10 (amended). [remove_node] on a tracked node, when the unbinding is
    accepted, erases the node from the tracked list and unwires exactly what
    is reached through the groups of the node that are alive and can be taken
    from: these timers leave the timers manager and these entities have their
    callback cleared.  Every other timer stays in the timers manager and
    every other entity keeps its registration; in particular the timers and
    entities of a group whose flag is false, unless they are also listed in
    a live group of the node whose flag is true. *)
Theorem remove_node_unwires_enabled_groups_only
    (c : EventsExecutorEntitiesCollector) (w : World) (node_ptr : addr) (n : NodeBase)
    (l1 l2 : list addr) :
  weak_nodes_ c = l1 ++ node_ptr :: l2 →
  node_ptr ∉ l1 →
  nodes w !! node_ptr = Some n →
  rcl_set_callback_ret (rcl w) = RCL_RET_OK →
  (remove_node node_ptr (c, w)).1 = Ok tt ∧
  weak_nodes_ (remove_node node_ptr (c, w)).2.1 = l1 ++ l2 ∧
  (∀ t, t ∈ timers_manager_ (remove_node node_ptr (c, w)).2.1 ↔
        t ∈ timers_manager_ c ∧ ¬ timer_reached w node_ptr t) ∧
  (∀ e, entity_reached w node_ptr e →
        entities (remove_node node_ptr (c, w)).2.2 !! e
        = (λ x, mkEntity (kind x) unregistered) <$> entities w !! e) ∧
  (∀ e, ¬ entity_reached w node_ptr e →
        entities (remove_node node_ptr (c, w)).2.2 !! e = entities w !! e) ∧
  (∀ weak_group group,
     weak_group ∈ callback_groups n →
     groups w !! weak_group = Some group →
     can_be_taken_from group = false →
     (∀ t, t ∈ timer_ptrs group → t ∈ timers_manager_ c →
           ¬ timer_reached w node_ptr t →
           t ∈ timers_manager_ (remove_node node_ptr (c, w)).2.1) ∧
     (∀ e, e ∈ group_entity_ptrs group → ¬ entity_reached w node_ptr e →
           events_executor_callback <$> entities (remove_node node_ptr (c, w)).2.2 !! e
           = events_executor_callback <$> entities w !! e)).
Proof.
  intros Hweak Hnotin Hn Hret.
  unfold remove_node. rewrite bind_gets. cbn [fst]. rewrite Hweak.
  rewrite (remove_node_from_found node_ptr n 0 l1 l2 c w Hnotin Hn).
  rewrite decide_True by done. cbn [fst snd plus].
  unfold remove_node_unwired. cbn. rewrite Hweak, delete_middle.
  assert (Htm : ∀ t, t ∈ timers_manager_ c ∖ list_to_set (node_timers w node_ptr) ↔
                     t ∈ timers_manager_ c ∧ ¬ timer_reached w node_ptr t).
  { intros t. by rewrite elem_of_difference, elem_of_list_to_set, elem_of_node_timers. }
  assert (Hkeep : ∀ e, ¬ entity_reached w node_ptr e →
                       register_all None None (node_entities w node_ptr) (entities w) !! e
                       = entities w !! e).
  { intros e He. rewrite lookup_register_all, decide_False; [done|].
    by rewrite elem_of_node_entities. }
  split_and!; try done.
  - intros e He. rewrite lookup_register_all, decide_True; [done|].
    by apply elem_of_node_entities.
  - intros weak_group group _ _ _. split.
    + intros t _ Hin Hnot. by apply Htm.
    + intros e _ Hnot. by rewrite Hkeep.
Qed.

(** ** Removal from one executor, addition to another *)

Lemma add_node_Ok_inv c w node_ptr s :
  add_node node_ptr (c, w) = (Ok tt, s) →
  associated_with_executor <$> nodes s.2 !! node_ptr = Some true.
Proof.
  intros Hadd. destruct (nodes w !! node_ptr) as [n|] eqn:Hn.
  - destruct (associated_with_executor n) eqn:Hflag.
    + by rewrite (add_node_owned c w node_ptr n Hn Hflag) in Hadd.
    + rewrite (add_node_fresh c w node_ptr n Hn Hflag) in Hadd.
      case_decide; [|done]. injection Hadd as <-. cbn.
      by rewrite !lookup_alter_eq, Hn.
  - unfold add_node in Hadd. rewrite bind_gets in Hadd. cbn [snd] in Hadd.
    by rewrite Hn in Hadd.
Qed.

Lemma add_node_Ok_cases c w node_ptr s :
  add_node node_ptr (c, w) = (Ok tt, s) →
  ∃ n, nodes w !! node_ptr = Some n ∧ associated_with_executor n = false ∧
       rcl_set_callback_ret (rcl w) = RCL_RET_OK ∧
       s = ((add_node_wired node_ptr c w).1,
            with_nodes
              (alter (set_guard_condition_callback
                        (Some (associated_executor_ c)) (Some push_event) (Some (this c)))
                 node_ptr)
              (add_node_wired node_ptr c w).2).
Proof.
  intros Hadd. destruct (nodes w !! node_ptr) as [n|] eqn:Hn.
  - destruct (associated_with_executor n) eqn:Hflag.
    + by rewrite (add_node_owned c w node_ptr n Hn Hflag) in Hadd.
    + rewrite (add_node_fresh c w node_ptr n Hn Hflag) in Hadd.
      case_decide as Hret; [|done]. injection Hadd as <-. by exists n.
  - unfold add_node in Hadd. rewrite bind_gets in Hadd. cbn [snd] in Hadd.
    by rewrite Hn in Hadd.
Qed.


(** ** [create_publisher] and [create_subscription] *)

Lemma fresh_publisher_None (w : World) : publishers w !! fresh (dom (publishers w)) = None.
Proof. apply not_elem_of_dom. apply is_fresh. Qed.

Lemma fresh_entity_None (m : gmap addr Entity) : m !! fresh (dom m) = None.
Proof. apply not_elem_of_dom. apply is_fresh. Qed.

Lemma publisher_destroyed built w :
  with_publishers (delete (fresh (dom (publishers w))))
    (with_publishers (insert (fresh (dom (publishers w))) built) w) = w.
Proof.
  pose proof (fresh_publisher_None w) as Hfresh. destruct w.
  unfold with_publishers. cbn -[fresh] in *. f_equal.
  by rewrite delete_insert_eq, delete_id.
Qed.

Lemma entity_destroyed built w :
  with_entities (delete (fresh (dom (entities w))))
    (with_entities (insert (fresh (dom (entities w))) built) w) = w.
Proof.
  pose proof (fresh_entity_None (entities w)) as Hfresh. destruct w.
  unfold with_entities. cbn -[fresh] in *. f_equal.
  by rewrite delete_insert_eq, delete_id.
Qed.

(** C2. With intra-process use requested, [create_publisher] throws an
    invalid-argument error exactly when the history is keep-all or the
    durability is not volatile.  When it throws, nothing has been
    registered: the intra-process manager is as before the call, and so is
    the whole store (the publisher built by the factory is gone with the
    exception).  When it does not throw, it returns the new publisher, the
    manager keeps this publisher under the id it has handed out, and the
    publisher carries that id. *)
Theorem create_publisher_intra_process
    (nt : NodeTopics) (topic_name : string) (publisher_factory : PublisherFactory)
    (publisher_options : rcl_publisher_options_t) (w : World) :
  let r := create_publisher nt topic_name publisher_factory publisher_options true w in
  let publisher := fresh (dom (publishers w)) in
  let built := create_typed_publisher publisher_factory (node_base_ nt) topic_name
                 publisher_options in
  let id := ipm_next_id (ipm w) in
  let rejected :=
    history (publisher_qos publisher_options) = RMW_QOS_POLICY_HISTORY_KEEP_ALL ∨
    durability (publisher_qos publisher_options) ≠ RMW_QOS_POLICY_DURABILITY_VOLATILE in
  ((∃ what, r.1 = Throw (invalid_argument what)) ↔ rejected) ∧
  (rejected → ipm r.2 = ipm w ∧ r.2 = w) ∧
  (¬ rejected →
     r.1 = Ok publisher ∧
     ipm_publishers (ipm r.2) = <[id := publisher]> (ipm_publishers (ipm w)) ∧
     ipm_subscriptions (ipm r.2) = ipm_subscriptions (ipm w) ∧
     publishers r.2 !! publisher
     = Some (mkPublisherBase (pub_topic_name built) (pub_event_handlers built) (Some id))).
Proof.
  cbv zeta. unfold create_publisher. rewrite bind_call.
  unfold make_shared_publisher. cbn [fst snd].
  destruct (decide (history (publisher_qos publisher_options)
                    = RMW_QOS_POLICY_HISTORY_KEEP_ALL)) as [Hh|Hh].
  { run_M. rewrite delete_insert_eq, delete_id by apply fresh_publisher_None.
    split_and!; [split; eauto|intros _; split; [done|apply publisher_destroyed]|].
    intros Hn. exfalso. apply Hn. by left. }
  destruct (decide (durability (publisher_qos publisher_options)
                    ≠ RMW_QOS_POLICY_DURABILITY_VOLATILE)) as [Hd|Hd].
  { run_M. rewrite delete_insert_eq, delete_id by apply fresh_publisher_None.
    split_and!; [split; eauto|intros _; split; [done|apply publisher_destroyed]|].
    intros Hn. exfalso. apply Hn. by right. }
  run_M. split_and!.
  - split; [by intros [what ?]|]. intros [?|?]; done.
  - intros [?|?]; done.
  - intros _. split_and!; try done. by rewrite lookup_alter_eq, lookup_insert_eq.
Qed.

Lemma fresh_entity_ne (m : gmap addr Entity) (e : Entity) :
  fresh (dom (<[fresh (dom m) := e]> m)) ≠ fresh (dom m).
Proof.
  intros Heq.
  pose proof (is_fresh (dom (<[fresh (dom m) := e]> m))) as Hfresh.
  rewrite Heq in Hfresh. apply Hfresh. rewrite dom_insert_L. set_solver.
Qed.

(** C3. With intra-process use requested, [create_subscription] throws an
    invalid-argument error exactly when the history is keep-all, or keep-last
    with depth zero, or the durability is not volatile.  When it throws,
    nothing has been registered: the intra-process manager is as before the
    call, and so is the whole store (the subscription built by the factory is
    gone with the exception).  When it does not throw, a second
    object, the intra-process subscription, has been built at an address of
    its own, the manager keeps it under the id it has handed out, the
    subscription carries that id, and the manager finds the object again
    under it. *)
Theorem create_subscription_intra_process
    (nt : NodeTopics) (topic_name : string) (subscription_factory : SubscriptionFactory)
    (subscription_options : rcl_subscription_options_t)
    (buffer_type : IntraProcessBufferType) (w : World) :
  let r := create_subscription nt topic_name subscription_factory subscription_options
             true buffer_type w in
  let built := create_typed_subscription subscription_factory (node_base_ nt) topic_name
                 subscription_options in
  let subscription := fresh (dom (entities w)) in
  let with_subscription :=
    <[subscription := mkEntity (SubscriptionBase built) unregistered]> (entities w) in
  let subscription_intra_process := fresh (dom with_subscription) in
  let id := ipm_next_id (ipm w) in
  let rejected :=
    history (subscription_qos subscription_options) = RMW_QOS_POLICY_HISTORY_KEEP_ALL ∨
    (history (subscription_qos subscription_options) = RMW_QOS_POLICY_HISTORY_KEEP_LAST ∧
     depth (subscription_qos subscription_options) = 0%N) ∨
    durability (subscription_qos subscription_options)
      ≠ RMW_QOS_POLICY_DURABILITY_VOLATILE in
  ((∃ what, r.1 = Throw (invalid_argument what)) ↔ rejected) ∧
  (rejected → ipm r.2 = ipm w ∧ r.2 = w) ∧
  (¬ rejected →
     r.1 = Ok subscription ∧
     subscription_intra_process ≠ subscription ∧
     entities r.2 !! subscription_intra_process
     = Some (mkEntity
               (create_typed_subscription_intra_process subscription_factory buffer_type
                  (sub_topic_name built) subscription_options)
               unregistered) ∧
     ipm_subscriptions (ipm r.2) = <[id := subscription_intra_process]>
                                     (ipm_subscriptions (ipm w)) ∧
     ipm_publishers (ipm r.2) = ipm_publishers (ipm w) ∧
     entities r.2 !! subscription
     = Some (mkEntity
               (SubscriptionBase
                  (mkSubscriptionFields (sub_topic_name built) (sub_event_handlers built)
                     (Some id)))
               unregistered) ∧
     ipm_get_subscription_intra_process id r.2 = Some subscription_intra_process).
Proof.
  cbv zeta. unfold create_subscription. rewrite bind_call.
  unfold make_shared_entity at 1. cbn [fst snd].
  destruct (decide (history (subscription_qos subscription_options)
                    = RMW_QOS_POLICY_HISTORY_KEEP_ALL)) as [Hh|Hh].
  { run_M.
    split_and!; [split; eauto|intros _; split; [done|apply entity_destroyed]|].
    intros Hn. exfalso. apply Hn. by left. }
  destruct (decide (history (subscription_qos subscription_options)
                      = RMW_QOS_POLICY_HISTORY_KEEP_LAST
                    ∧ depth (subscription_qos subscription_options) = 0%N)) as [Hk|Hk].
  { run_M.
    split_and!; [split; eauto|intros _; split; [done|apply entity_destroyed]|].
    intros Hn. exfalso. apply Hn. right. by left. }
  destruct (decide (durability (subscription_qos subscription_options)
                    ≠ RMW_QOS_POLICY_DURABILITY_VOLATILE)) as [Hd|Hd].
  { run_M.
    split_and!; [split; eauto|intros _; split; [done|apply entity_destroyed]|].
    intros Hn. exfalso. apply Hn. right. by right. }
  run_M. rewrite lookup_insert_eq. cbn -[fresh].
  pose proof (fresh_entity_ne (entities w)
                (mkEntity (SubscriptionBase
                   (create_typed_subscription subscription_factory (node_base_ nt)
                      topic_name subscription_options)) unregistered)) as Hne.
  run_M. split_and!.
  - split; [by intros [what ?]|]. intros [?|[?|?]]; done.
  - intros [?|[?|?]]; done.
  - intros _. split_and!; try done.
    + by rewrite lookup_alter_ne, lookup_insert_eq by done.
    + rewrite lookup_alter_eq, lookup_insert_ne, lookup_insert_eq by done. done.
    + unfold ipm_get_subscription_intra_process. cbn -[fresh].
      rewrite lookup_insert_eq. cbn -[fresh]. unfold lock_entity. cbn -[fresh].
      by rewrite lookup_alter_ne, lookup_insert_eq by done.
Qed.

(** ** [add_publisher] and [add_subscription] *)

Lemma assign_to_group_closed nt callback_group what w n :
  nodes w !! node_base_ nt = Some n →
  assign_to_group nt callback_group what w
  = match assigned_group n callback_group w with
    | Some group => (Ok group, w)
    | None => (Throw (runtime_error what), w)
    end.
Proof.
  intros Hn. unfold assign_to_group, assigned_group. rewrite bind_gets, Hn.
  destruct callback_group as [group|]; [|done].
  rewrite bind_gets. by destruct (callback_group_in_node n group w).
Qed.

Lemma notify_executor_closed nt what w :
  notify_executor nt what w
  = if decide (rcl_trigger_ret (rcl w) = RCL_RET_OK)
    then (Ok tt, with_nodes (alter trigger_guard_condition (node_base_ nt)) w)
    else (Throw (runtime_error (what +:+ rmw_error_string (rcl w))), w).
Proof.
  unfold notify_executor. rewrite bind_call. unfold rcl_trigger_guard_condition.
  destruct (decide (rcl_trigger_ret (rcl w) = RCL_RET_OK)) as [Hret|Hret]; cbn [fst snd].
  - by rewrite decide_False by (intros H; by apply H).
  - by rewrite decide_True.
Qed.

Lemma group_method_closed f callback_group group w :
  groups w !! callback_group = Some group →
  group_method f callback_group w
  = (Ok tt, with_groups (insert callback_group (f group)) w).
Proof.
  intros Hg. unfold group_method. rewrite bind_gets, Hg. unfold modify, with_groups.
  do 2 f_equal.
  apply map_eq. intros k. rewrite lookup_alter, lookup_insert.
  case_decide; [subst k; by rewrite Hg|done].
Qed.

Lemma group_push_waitables_nil g : group_push_waitables [] g = g.
Proof. destruct g. unfold group_push_waitables. simpl. by rewrite app_nil_r. Qed.

Lemma group_push_waitables_cons a l g :
  group_push_waitables l (group_push_waitable a g) = group_push_waitables (a :: l) g.
Proof. unfold group_push_waitables, group_push_waitable. simpl. by rewrite <- app_assoc. Qed.

Lemma group_push_waitables_snoc a l g :
  group_push_waitable a (group_push_waitables l g) = group_push_waitables (l ++ [a]) g.
Proof. unfold group_push_waitables, group_push_waitable. simpl. by rewrite app_assoc. Qed.

Lemma with_groups_insert_insert k g1 g2 w :
  with_groups (insert k g2) (with_groups (insert k g1) w) = with_groups (insert k g2) w.
Proof. unfold with_groups. simpl. by rewrite insert_insert_eq. Qed.

Lemma for_each_add_waitable l callback_group group w :
  groups w !! callback_group = Some group →
  for_each l (add_waitable callback_group) w
  = (Ok tt, with_groups (insert callback_group (group_push_waitables l group)) w).
Proof.
  revert group w. induction l as [|a l IH]; intros group w Hg.
  - cbn [for_each]. unfold mret, M_ret. do 2 f_equal.
    rewrite group_push_waitables_nil. destruct w. unfold with_groups. simpl in *.
    f_equal. by rewrite insert_id.
  - cbn [for_each]. unfold add_waitable at 1.
    erewrite bind_Ok; [|by apply group_method_closed].
    erewrite IH; [|cbn; apply lookup_insert_eq].
    by rewrite with_groups_insert_insert, group_push_waitables_cons.
Qed.

Lemma add_publisher_closed nt publisher callback_group w n p g group :
  nodes w !! node_base_ nt = Some n →
  publishers w !! publisher = Some p →
  assigned_group n callback_group w = Some g →
  groups w !! g = Some group →
  add_publisher nt publisher callback_group w
  = notify_executor nt "Failed to notify wait set on publisher creation: "
      (with_groups (insert g (group_push_waitables (pub_event_handlers p) group)) w).
Proof.
  intros Hn Hp Hassigned Hg. unfold add_publisher.
  erewrite bind_Ok; [|by rewrite (assign_to_group_closed _ _ _ _ n), Hassigned].
  rewrite bind_gets, Hp.
  erewrite bind_Ok; [done|]. by apply for_each_add_waitable.
Qed.

Lemma add_publisher_rejected nt publisher callback_group w n :
  nodes w !! node_base_ nt = Some n →
  assigned_group n callback_group w = None →
  add_publisher nt publisher callback_group w
  = (Throw (runtime_error "Cannot create publisher, callback group not in node."), w).
Proof.
  intros Hn Hassigned. unfold add_publisher.
  erewrite bind_Throw; [done|]. by rewrite (assign_to_group_closed _ _ _ _ n), Hassigned.
Qed.

Lemma add_subscription_rejected nt subscription callback_group use_intra_process w n :
  nodes w !! node_base_ nt = Some n →
  assigned_group n callback_group w = None →
  add_subscription nt subscription callback_group use_intra_process w
  = (Throw (runtime_error "Cannot create subscription, callback group not in node."), w).
Proof.
  intros Hn Hassigned. unfold add_subscription.
  erewrite bind_Throw; [done|]. by rewrite (assign_to_group_closed _ _ _ _ n), Hassigned.
Qed.

Lemma add_subscription_closed nt subscription callback_group w n e f g group :
  nodes w !! node_base_ nt = Some n →
  entities w !! subscription = Some e →
  kind e = SubscriptionBase f →
  assigned_group n callback_group w = Some g →
  groups w !! g = Some group →
  add_subscription nt subscription callback_group false w
  = notify_executor nt "Failed to notify wait set on subscription creation: "
      (with_groups
         (insert g (group_push_waitables (sub_event_handlers f)
                      (group_push_subscription subscription group))) w).
Proof.
  intros Hn He Hkind Hassigned Hg. unfold add_subscription.
  erewrite bind_Ok; [|by rewrite (assign_to_group_closed _ _ _ _ n), Hassigned].
  erewrite bind_Ok; [|by apply group_method_closed].
  rewrite bind_gets. cbn [entities with_groups]. rewrite He.
  cbn [mbind option_bind]. unfold subscription_fields. rewrite Hkind.
  erewrite bind_Ok; [|apply for_each_add_waitable; cbn; apply lookup_insert_eq].
  rewrite with_groups_insert_insert.
  erewrite bind_Ok; done.
Qed.

Lemma add_subscription_intra_process_closed
    nt subscription callback_group w n e f g group id waitable :
  nodes w !! node_base_ nt = Some n →
  entities w !! subscription = Some e →
  kind e = SubscriptionBase f →
  sub_intra_process_id f = Some id →
  ipm_get_subscription_intra_process id w = Some waitable →
  assigned_group n callback_group w = Some g →
  groups w !! g = Some group →
  add_subscription nt subscription callback_group true w
  = notify_executor nt "Failed to notify wait set on subscription creation: "
      (with_groups
         (insert g (group_push_waitables (sub_event_handlers f ++ [waitable])
                      (group_push_subscription subscription group))) w).
Proof.
  intros Hn He Hkind Hid Hipm Hassigned Hg. unfold add_subscription.
  erewrite bind_Ok; [|by rewrite (assign_to_group_closed _ _ _ _ n), Hassigned].
  erewrite bind_Ok; [|by apply group_method_closed].
  rewrite bind_gets. cbn [entities with_groups]. rewrite He.
  cbn [mbind option_bind]. unfold subscription_fields. rewrite Hkind.
  erewrite bind_Ok; [|apply for_each_add_waitable; cbn; apply lookup_insert_eq].
  rewrite with_groups_insert_insert, Hid.
  erewrite bind_Ok; [done|].
  rewrite bind_gets.
  replace (ipm_get_subscription_intra_process id _) with (Some waitable) by done.
  unfold add_waitable. erewrite group_method_closed; [|cbn; apply lookup_insert_eq].
  by rewrite with_groups_insert_insert, group_push_waitables_snoc.
Qed.

Lemma notify_executor_notified nt n what w w' :
  nodes w' !! node_base_ nt = Some n →
  nodes w' = nodes w →
  rcl w' = rcl w →
  notified nt n w what (notify_executor nt what w').
Proof.
  intros Hn Hnodes Hrcl. rewrite notify_executor_closed, Hrcl. unfold notified.
  destruct (decide (rcl_trigger_ret (rcl w) = RCL_RET_OK)) as [Hret|Hret]; cbn [fst snd].
  - split; [|done]. intros _. split; [done|].
    cbn [nodes with_nodes]. by rewrite lookup_alter_eq, Hn.
  - split; [done|]. by intros _.
Qed.

(** C6. [add_publisher] and [add_subscription] throw the runtime error when
    an explicit group does not belong to the node, and change nothing.
    Otherwise the endpoint goes to the explicit group, or to the default
    group of the node when none is given: the event handlers of the endpoint
    are appended to the waitables of the group (after the subscription itself
    has been appended to its subscriptions and, with intra-process use,
    followed by the intra-process companion that the manager keeps under the
    id of the subscription); then the guard condition of the node is
    triggered, and a refusal of the transport layer surfaces as the runtime
    error whose text carries the error string of the transport layer, the
    registrations in the group being kept. *)
Theorem add_endpoint_contract
    (nt : NodeTopics) (w : World) (n : NodeBase) (callback_group : option addr) :
  nodes w !! node_base_ nt = Some n →
  (∀ group, callback_group = Some group → callback_group_in_node n group w = false →
     (∀ publisher,
        add_publisher nt publisher callback_group w
        = (Throw (runtime_error "Cannot create publisher, callback group not in node."), w)) ∧
     (∀ subscription use_intra_process,
        add_subscription nt subscription callback_group use_intra_process w
        = (Throw (runtime_error "Cannot create subscription, callback group not in node."),
           w))) ∧
  (∀ g group,
     assigned_group n callback_group w = Some g →
     groups w !! g = Some group →
     (∀ publisher p,
        publishers w !! publisher = Some p →
        groups (add_publisher nt publisher callback_group w).2
        = <[g := group_push_waitables (pub_event_handlers p) group]> (groups w) ∧
        notified nt n w "Failed to notify wait set on publisher creation: "
          (add_publisher nt publisher callback_group w)) ∧
     (∀ subscription e f,
        entities w !! subscription = Some e →
        kind e = SubscriptionBase f →
        (groups (add_subscription nt subscription callback_group false w).2
         = <[g := group_push_waitables (sub_event_handlers f)
                    (group_push_subscription subscription group)]> (groups w) ∧
         notified nt n w "Failed to notify wait set on subscription creation: "
           (add_subscription nt subscription callback_group false w)) ∧
        (∀ id waitable,
           sub_intra_process_id f = Some id →
           ipm_get_subscription_intra_process id w = Some waitable →
           groups (add_subscription nt subscription callback_group true w).2
           = <[g := group_push_waitables (sub_event_handlers f ++ [waitable])
                      (group_push_subscription subscription group)]> (groups w) ∧
           notified nt n w "Failed to notify wait set on subscription creation: "
             (add_subscription nt subscription callback_group true w)))).
Proof.
  intros Hn. split.
  - intros group -> Hin.
    assert (Hassigned : assigned_group n (Some group) w = None).
    { unfold assigned_group. by rewrite Hin. }
    split; intros.
    + by apply (add_publisher_rejected _ _ _ _ n).
    + by apply (add_subscription_rejected _ _ _ _ _ n).
  - intros g group Hassigned Hg.
    assert (Hgroups : ∀ what w',
              nodes w' = nodes w → rcl w' = rcl w →
              groups (notify_executor nt what w').2 = groups w').
    { intros what w' _ _. rewrite notify_executor_closed. by case_decide. }
    split.
    + intros publisher p Hp.
      rewrite (add_publisher_closed nt publisher callback_group w n p g group) by done.
      split; [by rewrite Hgroups|]. by apply notify_executor_notified.
    + intros subscription e f He Hkind. split.
      * rewrite (add_subscription_closed nt subscription callback_group w n e f g group)
          by done.
        split; [by rewrite Hgroups|]. by apply notify_executor_notified.
      * intros id waitable Hid Hipm.
        rewrite (add_subscription_intra_process_closed
                   nt subscription callback_group w n e f g group id waitable) by done.
        split; [by rewrite Hgroups|]. by apply notify_executor_notified.
Qed.

(** ** The theorems at work on the concrete store *)

Import Demo.

Lemma demo_node_entities : node_entities w1 1 = [101; 105; 102; 103; 104].
Proof. reflexivity. Qed.

Lemma demo_node_timers : node_timers w1 1 = [100].
Proof. reflexivity. Qed.

Lemma demo_111_not_reached : ¬ entity_reached w1 1 111.
Proof.
  rewrite <- elem_of_node_entities, demo_node_entities.
  rewrite !elem_of_cons, elem_of_nil. intros H. decompose [or] H; done.
Qed.

Lemma demo_110_not_reached : ¬ timer_reached w1 1 110.
Proof.
  rewrite <- elem_of_node_timers, demo_node_timers.
  rewrite !elem_of_cons, elem_of_nil. intros H. decompose [or] H; done.
Qed.

Lemma demo_101_reached : entity_reached w1 1 101.
Proof. rewrite <- elem_of_node_entities, demo_node_entities. by left. Qed.

Lemma demo_w0_101_reached : entity_reached w0 1 101.
Proof. apply elem_of_node_entities. by left. Qed.

Lemma demo_w0_failing_101_reached : entity_reached w0_failing 1 101.
Proof. apply elem_of_node_entities. by left. Qed.

Lemma demo_w0_stale_101_reached : entity_reached w0_stale 1 101.
Proof. apply elem_of_node_entities. by left. Qed.

Lemma demo_w0_100_reached : timer_reached w0 1 100.
Proof. apply elem_of_node_timers. by left. Qed.

Lemma demo_w0_110_not_reached : ¬ timer_reached w0 1 110.
Proof.
  rewrite <- elem_of_node_timers.
  change (node_timers w0 1) with [100].
  rewrite !elem_of_cons, elem_of_nil. intros H. decompose [or] H; done.
Qed.

(** Node 1 is added to executor A: it becomes tracked and owned, its timer
    100 is in the timers manager and its subscription 101, which had no
    callback, carries the push callback of executor 90. *)
Lemma add_node_contract_witness :
  nodes w0 !! 1 = Some node1 ∧
  associated_with_executor node1 = false ∧
  rcl_set_callback_ret (rcl w0) = RCL_RET_OK ∧
  (add_node 1 (executor_A, w0)).1 = Ok tt ∧
  weak_nodes_ (add_node 1 (executor_A, w0)).2.1 = [] ++ [1] ∧
  100 ∈ timers_manager_ (add_node 1 (executor_A, w0)).2.1 ∧
  events_executor_callback <$> entities w0 !! 101 = Some unregistered ∧
  events_executor_callback <$> entities (add_node 1 (executor_A, w0)).2.2 !! 101
  = Some (mkRegistration (Some 90) (Some push_event)).
Proof.
  destruct (add_node_contract executor_A w0 1 node1 eq_refl) as (_ & H & _).
  destruct (H eq_refl eq_refl) as (H1 & _ & H3 & H4 & H5).
  split_and!; [reflexivity..|exact H1|exact H3| |reflexivity|].
  - apply H4. right. exact demo_w0_100_reached.
  - by rewrite (H5 101 demo_w0_101_reached).
Defined.

(** The transport layer refuses the binding: node 1 stays tracked and owned,
    and its subscription 101, which had no callback, is left with the push
    callback of executor 90. *)
Lemma add_node_binding_failure_witness :
  nodes w0_failing !! 1 = Some node1 ∧
  associated_with_executor node1 = false ∧
  rcl_set_callback_ret (rcl w0_failing) ≠ RCL_RET_OK ∧
  (add_node 1 (executor_A, w0_failing)).1
  = Throw (runtime_error "Couldn't set node guard condition callback") ∧
  associated_with_executor <$> nodes (add_node 1 (executor_A, w0_failing)).2.2 !! 1
  = Some true ∧
  weak_nodes_ (add_node 1 (executor_A, w0_failing)).2.1 = [] ++ [1] ∧
  events_executor_callback <$> entities w0_failing !! 101 = Some unregistered ∧
  events_executor_callback <$> entities (add_node 1 (executor_A, w0_failing)).2.2 !! 101
  = Some (mkRegistration (Some 90) (Some push_event)).
Proof.
  assert (Hret : rcl_set_callback_ret (rcl w0_failing) ≠ RCL_RET_OK) by done.
  destruct (add_node_binding_failure_not_rolled_back executor_A w0_failing 1 node1
              eq_refl eq_refl Hret) as (H1 & H2 & H3 & _ & H5).
  split_and!; [reflexivity|reflexivity|exact Hret|exact H1| |exact H3|reflexivity|].
  - by rewrite H2.
  - by rewrite (H5 101 demo_w0_failing_101_reached).
Defined.

(** Node 1 is removed from executor A while its group 11 is disabled: the
    subscription 111 of group 11 keeps the push callback and the timer 110
    stays in the timers manager, whereas the subscription 101 of the enabled
    group 10 is cleared. *)
Lemma remove_node_unwires_enabled_groups_only_witness :
  weak_nodes_ executor_A1 = [2] ++ 1 :: [] ∧
  (1 ∉ [2]) ∧
  nodes w1 !! 1 = Some node1_owned ∧
  rcl_set_callback_ret (rcl w1) = RCL_RET_OK ∧
  (remove_node 1 (executor_A1, w1)).1 = Ok tt ∧
  weak_nodes_ (remove_node 1 (executor_A1, w1)).2.1 = [2] ++ [] ∧
  110 ∈ timers_manager_ (remove_node 1 (executor_A1, w1)).2.1 ∧
  events_executor_callback <$> entities (remove_node 1 (executor_A1, w1)).2.2 !! 111
  = Some (mkRegistration (Some 90) (Some push_event)) ∧
  events_executor_callback <$> entities (remove_node 1 (executor_A1, w1)).2.2 !! 101
  = Some unregistered.
Proof.
  assert (Hnil : 1 ∉ [2]).
  { rewrite elem_of_cons, elem_of_nil. intros [?|?]; done. }
  destruct (remove_node_unwires_enabled_groups_only executor_A1 w1 1 node1_owned [2] []
              eq_refl Hnil eq_refl eq_refl) as (H1 & H2 & H3 & H4 & H5 & _).
  split_and!; [reflexivity|exact Hnil|reflexivity|reflexivity|exact H1|exact H2|..].
  - apply H3. split; [|exact demo_110_not_reached]. vm_compute. reflexivity.
  - by rewrite (H5 111 demo_111_not_reached).
  - by rewrite (H4 101 demo_101_reached).
Defined.

(** The subscription 101 and the timer 100 are listed in the disabled
    group 11 as well as in the enabled group 10: [remove_node] of node 1
    reaches them through group 10, so 101 loses its push callback and 100
    leaves the timers manager although both belong to a group whose flag is
    false. *)
Lemma remove_node_clears_entity_shared_with_disabled_group :
  11 ∈ callback_groups node1_owned ∧
  groups w1_shared !! 11 = Some (mkCallbackGroup false [110; 100] [111; 101] [] [] []) ∧
  nodes w1_shared !! 1 = Some node1_owned ∧
  events_executor_callback <$> entities w1_shared !! 101
  = Some (mkRegistration (Some 90) (Some push_event)) ∧
  100 ∈ timers_manager_ executor_A1 ∧
  (remove_node 1 (executor_A1, w1_shared)).1 = Ok tt ∧
  events_executor_callback <$> entities (remove_node 1 (executor_A1, w1_shared)).2.2 !! 101
  = Some unregistered ∧
  100 ∉ timers_manager_ (remove_node 1 (executor_A1, w1_shared)).2.1.
Proof.
  split_and!; try (vm_compute; reflexivity).
  - right. by left.
  - assert (Htm : timers_manager_ (remove_node 1 (executor_A1, w1_shared)).2.1 = {[110]})
      by (vm_compute; reflexivity).
    rewrite Htm. set_solver.
Qed.


(** The subscription 120 goes to the default group 10 of node 1 with its
    event handler and its intra-process companion; the publisher 0 is refused
    for the group 12, which is not a group of the node any more. *)
Lemma add_endpoint_contract_witness :
  nodes w2 !! node_base_ node_topics = Some node1 ∧
  (add_subscription node_topics 120 None true w2).1 = Ok tt ∧
  waitable_ptrs <$> groups (add_subscription node_topics 120 None true w2).2 !! 10
  = Some [104; 104; 121] ∧
  subscription_ptrs <$> groups (add_subscription node_topics 120 None true w2).2 !! 10
  = Some [101; 105; 120] ∧
  (gc_triggered ∘ notify_guard_condition)
    <$> nodes (add_subscription node_topics 120 None true w2).2 !! 1 = Some 1 ∧
  (add_publisher node_topics 0 (Some 12) w2).1
  = Throw (runtime_error "Cannot create publisher, callback group not in node.").
Proof.
  destruct (add_endpoint_contract node_topics w2 node1 None eq_refl) as (_ & H).
  destruct (H 10 (mkCallbackGroup true [100] [101; 105] [102] [103] [104])
              eq_refl eq_refl) as (_ & Hsub).
  destruct (Hsub 120 _ (mkSubscriptionFields "/topic" [104] (Some 1%Z)) eq_refl eq_refl)
    as (_ & Hip).
  destruct (Hip 1%Z 121 eq_refl eq_refl) as (Hgroups & Hok & _).
  destruct (Hok eq_refl) as (Hret & Hnode).
  destruct (add_endpoint_contract node_topics w2 node1 (Some 12) eq_refl) as (Hrej & _).
  destruct (Hrej 12 eq_refl eq_refl) as (Hpub & _).
  split_and!; [reflexivity|exact Hret| | | |by rewrite Hpub].
  - rewrite Hgroups. by rewrite lookup_insert_eq.
  - rewrite Hgroups. by rewrite lookup_insert_eq.
  - change (node_base_ node_topics) with 1 in Hnode. by rewrite Hnode.
Defined.

(** [execute] on a collector that tracks the dead node 2 and node 1, and
    holds the timer 110 of the disabled group 11: the timers manager is
    rebuilt with the timer 100 of group 10 and without 110, and the
    subscription 101, which had no callback, carries the push callback of
    executor 90. *)
Lemma execute_rebuilds_everything_witness :
  100 ∈ timers_manager_ (execute (mkCollector 900 90 {[110]} [2; 1], w0)).1 ∧
  (110 ∉ timers_manager_ (execute (mkCollector 900 90 {[110]} [2; 1], w0)).1) ∧
  events_executor_callback <$> entities w0 !! 101 = Some unregistered ∧
  events_executor_callback
    <$> entities (execute (mkCollector 900 90 {[110]} [2; 1], w0)).2 !! 101
  = Some (mkRegistration (Some 90) (Some push_event)).
Proof.
  destruct (execute_rebuilds_everything (mkCollector 900 90 {[110]} [2; 1]) w0)
    as (Htm & Hwired & _).
  split_and!.
  - apply Htm. exists 1. split; [right; by left|]. exact demo_w0_100_reached.
  - intros [node [Hnode H110]]%Htm.
    apply elem_of_cons in Hnode as [->|Hnode].
    + by destruct H110 as (n & _ & _ & Hgone & _).
    + apply elem_of_cons in Hnode as [->|Hnode]; [|by apply elem_of_nil in Hnode].
      by apply demo_w0_110_not_reached.
  - reflexivity.
  - rewrite Hwired; [done|]. exists 1. split; [right; by left|]. exact demo_w0_101_reached.
Defined.

Lemma execute_idempotent_witness :
  execute (execute (executor_A1, w1)) = execute (executor_A1, w1).
Proof. exact (execute_idempotent (executor_A1, w1)). Defined.

(** The destructor of executor A, which tracks the dead node 2 and the live
    node 1: node 1 is free again, node 2 is still gone. *)
Lemma destructor_disassociates_nodes_witness :
  associated_with_executor <$> nodes (destructor (executor_A1, w1)).2 !! 1 = Some false ∧
  nodes (destructor (executor_A1, w1)).2 !! 2 = None ∧
  weak_nodes_ (destructor (executor_A1, w1)).1 = [].
Proof.
  destruct (destructor_disassociates_nodes executor_A1 w1) as (Hweak & Hnode & Hgone & _).
  split_and!; [|by apply Hgone|exact Hweak].
  assert (Hin : 1 ∈ weak_nodes_ executor_A1) by (right; by left).
  by rewrite (Hnode 1 node1_owned Hin eq_refl).
Defined.

(** Publishers on topic "chatter": keep-all history is refused and leaves
    the store as it was; keep-last with volatile durability is registered
    under the id 0, which the publisher then carries. *)
Lemma create_publisher_intra_process_witness :
  (∃ what,
     (create_publisher node_topics "chatter" publisher_factory
        (mkPublisherOptions qos_keep_all) true w0).1 = Throw (invalid_argument what)) ∧
  (create_publisher node_topics "chatter" publisher_factory
     (mkPublisherOptions qos_keep_all) true w0).2 = w0 ∧
  (create_publisher node_topics "chatter" publisher_factory
     (mkPublisherOptions qos_keep_last_10) true w0).1 = Ok 0 ∧
  pub_intra_process_id
    <$> publishers (create_publisher node_topics "chatter" publisher_factory
                      (mkPublisherOptions qos_keep_last_10) true w0).2 !! 0
  = Some (Some 0%Z).
Proof.
  destruct (create_publisher_intra_process node_topics "chatter" publisher_factory
              (mkPublisherOptions qos_keep_all) w0) as (Hiff & Hrejected & _).
  destruct (create_publisher_intra_process node_topics "chatter" publisher_factory
              (mkPublisherOptions qos_keep_last_10) w0) as (_ & _ & Haccepted).
  cbv zeta in Hiff, Hrejected, Haccepted.
  assert (Hbad : history (publisher_qos (mkPublisherOptions qos_keep_all))
                 = RMW_QOS_POLICY_HISTORY_KEEP_ALL) by reflexivity.
  destruct (Hrejected (or_introl Hbad)) as (_ & Hipm).
  destruct Haccepted as (Hret & _ & _ & Hpub).
  { intros [Hh|Hd]; [discriminate Hh|by apply Hd]. }
  split_and!.
  - apply Hiff. by left.
  - exact Hipm.
  - exact Hret.
  - change 0 with (fresh (dom (publishers w0))) at 1. by rewrite Hpub.
Defined.

(** Subscriptions on topic "chatter": keep-last with depth zero is refused
    and leaves the store as it was; keep-last with depth 10 gets its
    intra-process companion at the next address, found again under the id 0
    of the subscription. *)
Lemma create_subscription_intra_process_witness :
  (∃ what,
     (create_subscription node_topics "chatter" subscription_factory
        (mkSubscriptionOptions qos_keep_last_0) true SharedPtrBuffer w0).1
     = Throw (invalid_argument what)) ∧
  (create_subscription node_topics "chatter" subscription_factory
     (mkSubscriptionOptions qos_keep_last_0) true SharedPtrBuffer w0).2 = w0 ∧
  (create_subscription node_topics "chatter" subscription_factory
     (mkSubscriptionOptions qos_keep_last_10) true SharedPtrBuffer w0).1 = Ok 112 ∧
  ipm_get_subscription_intra_process 0
    (create_subscription node_topics "chatter" subscription_factory
       (mkSubscriptionOptions qos_keep_last_10) true SharedPtrBuffer w0).2 = Some 113.
Proof.
  destruct (create_subscription_intra_process node_topics "chatter" subscription_factory
              (mkSubscriptionOptions qos_keep_last_0) SharedPtrBuffer w0)
    as (Hiff & Hrejected & _).
  destruct (create_subscription_intra_process node_topics "chatter" subscription_factory
              (mkSubscriptionOptions qos_keep_last_10) SharedPtrBuffer w0)
    as (_ & _ & Haccepted).
  cbv zeta in Hiff, Hrejected, Haccepted.
  assert (Hbad : history (subscription_qos (mkSubscriptionOptions qos_keep_last_0))
                 = RMW_QOS_POLICY_HISTORY_KEEP_LAST
                 ∧ depth (subscription_qos (mkSubscriptionOptions qos_keep_last_0)) = 0%N)
    by (split; reflexivity).
  destruct (Hrejected (or_intror (or_introl Hbad))) as (_ & Hipm).
  destruct Haccepted as (Hret & _ & _ & _ & _ & _ & Hfind).
  { intros [Hh|[[_ Hdepth]|Hd]]; [discriminate Hh|discriminate Hdepth|by apply Hd]. }
  split_and!.
  - apply Hiff. right. by left.
  - exact Hipm.
  - exact Hret.
  - exact Hfind.
Defined.

(** * Further properties of the collector *)

(** ** [remove_node]: nodes that are not tracked, refused unbinding *)

Lemma remove_node_from_absent node_ptr n rest i (c : EventsExecutorEntitiesCollector) w :
  nodes w !! node_ptr = Some n →
  node_ptr ∉ rest →
  remove_node_from node_ptr i rest (c, w) = (Ok tt, (c, w)).
Proof.
  intros Hn. revert i. induction rest as [|a rest IH]; intros i Hnotin; [done|].
  apply not_elem_of_cons in Hnotin as [Hne Hnotin].
  cbn [remove_node_from]. rewrite bind_gets. cbn [snd].
  rewrite (lock_node_alive _ _ _ Hn).
  rewrite bool_decide_eq_false_2 by (apply lock_node_other; congruence).
  by apply IH.
Qed.

(** X1. [remove_node] of a live node that the collector does not track walks
    the whole list without a match and returns normally: the collector and
    the store are exactly as before, and the transport layer is not called
    (so nothing is thrown even where it would refuse). *)
Theorem remove_node_untracked_is_noop
    (c : EventsExecutorEntitiesCollector) (w : World) (node_ptr : addr) :
  is_Some (nodes w !! node_ptr) →
  node_ptr ∉ weak_nodes_ c →
  remove_node node_ptr (c, w) = (Ok tt, (c, w)).
Proof.
  intros [n Hn] Hnotin. unfold remove_node. rewrite bind_gets. cbn [fst].
  by apply (remove_node_from_absent node_ptr n).
Qed.

(** X2. When the transport layer refuses to unbind the guard condition,
    [remove_node] of a tracked node throws its runtime error before it has
    unwired anything: the node is still tracked, the timers manager and all
    registrations are as before. *)
Theorem remove_node_unbinding_refused
    (c : EventsExecutorEntitiesCollector) (w : World) (node_ptr : addr) (n : NodeBase) :
  node_ptr ∈ weak_nodes_ c →
  nodes w !! node_ptr = Some n →
  rcl_set_callback_ret (rcl w) ≠ RCL_RET_OK →
  remove_node node_ptr (c, w)
  = (Throw (runtime_error "Couldn't set guard condition callback"), (c, w)).
Proof.
  intros Hin Hn Hret.
  apply list_elem_of_split_l in Hin as (l1 & l2 & Hweak & Hnotin).
  unfold remove_node. rewrite bind_gets. cbn [fst]. rewrite Hweak.
  rewrite (remove_node_from_found node_ptr n 0 l1 l2 c w Hnotin Hn).
  by rewrite decide_False.
Qed.

(** ** Ownership across collectors *)

(** X3. Single ownership: once [add_node] has succeeded on one collector,
    [add_node] of the same node on any collector (another one or the same)
    throws the already-added error and leaves that collector and the store
    as they were; the node is not tracked twice. *)
Theorem add_node_twice_fails
    (A B : EventsExecutorEntitiesCollector) (w : World) (node_ptr : addr) (sA : CState) :
  add_node node_ptr (A, w) = (Ok tt, sA) →
  add_node node_ptr (B, sA.2)
  = (Throw (runtime_error "Node has already been added to an executor."), (B, sA.2)).
Proof.
  intros Hadd. apply add_node_Ok_inv in Hadd.
  destruct (nodes sA.2 !! node_ptr) as [n'|] eqn:Hn'; [|done].
  injection Hadd as Hflag. by apply (add_node_owned B sA.2 node_ptr n').
Qed.


(** ** [execute] on a collector whose nodes are all gone *)

Lemma bind_all_nil {A B} (f : A → list B) (l : list A) :
  (∀ x, x ∈ l → f x = []) → l ≫= f = [].
Proof.
  induction l as [|a l IH]; intros Hf; [done|].
  rewrite bind_cons, (Hf a) by (by left).
  apply IH. intros x Hx. apply Hf. by right.
Qed.

(** X5. When none of the tracked nodes is alive any more (in particular when
    no node is tracked), [execute] only empties the timers manager: every
    dead weak pointer is skipped and the store is exactly as before. *)
Theorem execute_all_nodes_gone (c : EventsExecutorEntitiesCollector) (w : World) :
  (∀ node, node ∈ weak_nodes_ c → nodes w !! node = None) →
  execute (c, w) = (with_timers_manager (λ _, ∅) c, w).
Proof.
  intros Hgone. rewrite execute_closed.
  unfold tracked_timers, tracked_entities. cbn [fst snd].
  rewrite (bind_all_nil (node_timers w)), (bind_all_nil (node_entities w)).
  - by rewrite with_entities_register_nil.
  - intros node Hin. unfold node_entities. by rewrite (Hgone node Hin).
  - intros node Hin. unfold node_timers. by rewrite (Hgone node Hin).
Qed.

(** ** [add_node] followed by [remove_node] or by [execute] *)

Lemma node_timers_add_node_wired f node_ptr c w node :
  (∀ n, callback_groups (f n) = callback_groups n) →
  node_timers (with_nodes (alter f node_ptr) (add_node_wired node_ptr c w).2) node
  = node_timers w node.
Proof.
  intros Hf. unfold add_node_wired. cbn [snd].
  by rewrite node_timers_with_nodes, node_timers_stable, node_timers_with_nodes.
Qed.

Lemma node_entities_add_node_wired f node_ptr c w node :
  (∀ n, callback_groups (f n) = callback_groups n) →
  node_entities (with_nodes (alter f node_ptr) (add_node_wired node_ptr c w).2) node
  = node_entities w node.
Proof.
  intros Hf. unfold add_node_wired. cbn [snd].
  by rewrite node_entities_with_nodes, node_entities_stable, node_entities_with_nodes.
Qed.

(** X6. [remove_node] undoes the wiring of [add_node], not the ownership:
    after a successful [add_node] of a node that was not tracked, [remove_node]
    returns normally with the tracked list as it was before [add_node]; the
    timers and entities reached through the enabled groups of the node are
    out of the timers manager and without callback, every other entity is as
    before; the guard condition is unbound; but the ownership flag is still
    set. *)
Theorem add_node_then_remove_node
    (c : EventsExecutorEntitiesCollector) (w : World) (node_ptr : addr) (n : NodeBase) :
  nodes w !! node_ptr = Some n →
  associated_with_executor n = false →
  rcl_set_callback_ret (rcl w) = RCL_RET_OK →
  node_ptr ∉ weak_nodes_ c →
  (remove_node node_ptr (add_node node_ptr (c, w)).2).1 = Ok tt ∧
  weak_nodes_ (remove_node node_ptr (add_node node_ptr (c, w)).2).2.1 = weak_nodes_ c ∧
  (∀ t, t ∈ timers_manager_ (remove_node node_ptr (add_node node_ptr (c, w)).2).2.1 ↔
        t ∈ timers_manager_ c ∧ ¬ timer_reached w node_ptr t) ∧
  (∀ e, entity_reached w node_ptr e →
        entities (remove_node node_ptr (add_node node_ptr (c, w)).2).2.2 !! e
        = (λ x, mkEntity (kind x) unregistered) <$> entities w !! e) ∧
  (∀ e, ¬ entity_reached w node_ptr e →
        entities (remove_node node_ptr (add_node node_ptr (c, w)).2).2.2 !! e
        = entities w !! e) ∧
  nodes (remove_node node_ptr (add_node node_ptr (c, w)).2).2.2 !! node_ptr
  = Some (mkNodeBase true (callback_groups n) (default_callback_group n)
            (mkGuardCondition None None None (gc_triggered (notify_guard_condition n)))).
Proof.
  intros Hn Hflag Hret Hnotin.
  rewrite (add_node_fresh c w node_ptr n Hn Hflag), decide_True by done. cbn [snd].
  set (bound := set_guard_condition_callback
                  (Some (associated_executor_ c)) (Some push_event) (Some (this c))).
  assert (Hn1 : nodes (with_nodes (alter bound node_ptr) (add_node_wired node_ptr c w).2)
                  !! node_ptr
                = Some (bound (set_has_executor true n))).
  { unfold add_node_wired. cbn [snd nodes with_nodes with_entities].
    by rewrite !lookup_alter_eq, Hn. }
  unfold remove_node. rewrite bind_gets. cbn [fst].
  change (weak_nodes_ (add_node_wired node_ptr c w).1) with (weak_nodes_ c ++ node_ptr :: []).
  rewrite (remove_node_from_found node_ptr _ 0 (weak_nodes_ c) [] _ _ Hnotin Hn1).
  rewrite decide_True by done. cbn [fst snd plus].
  unfold remove_node_unwired.
  rewrite node_timers_add_node_wired, node_entities_add_node_wired by done.
  unfold add_node_wired.
  cbn [fst snd nodes entities with_nodes with_entities weak_nodes_ timers_manager_
       with_weak_nodes with_timers_manager].
  rewrite delete_middle, app_nil_r.
  split_and!; [done|done|..].
  - intros t. rewrite elem_of_difference, elem_of_union, elem_of_list_to_set,
      elem_of_node_timers. tauto.
  - intros e He. rewrite !lookup_register_all.
    rewrite !decide_True by (by apply elem_of_node_entities).
    by destruct (entities w !! e).
  - intros e He. rewrite !lookup_register_all.
    by rewrite !decide_False by (by rewrite elem_of_node_entities).
  - by rewrite !lookup_alter_eq, Hn.
Qed.

(** X7. Being a fixed point of the rebuild is kept by [add_node]: when the
    collector and the store are such that [execute] changes nothing, then
    after a successful [add_node] they are again such that [execute] changes
    nothing; the wiring pass of [add_node] does for the new node what the
    rebuild would do. *)
Theorem add_node_keeps_rebuild_fixed_point
    (c : EventsExecutorEntitiesCollector) (w : World) (node_ptr : addr) (sA : CState) :
  execute (c, w) = (c, w) →
  add_node node_ptr (c, w) = (Ok tt, sA) →
  execute sA = sA.
Proof.
  intros Hfix Hadd.
  destruct (add_node_Ok_cases c w node_ptr sA Hadd) as (n & Hn & Hflag & Hret & ->).
  rewrite execute_closed in Hfix.
  assert (Htm : timers_manager_ c = list_to_set (tracked_timers (c, w))).
  { by apply (f_equal (λ s, timers_manager_ s.1)) in Hfix. }
  assert (Hm : register_all (Some (associated_executor_ c)) (Some push_event)
                 (tracked_entities (c, w)) (entities w) = entities w).
  { by apply (f_equal (λ s, entities s.2)) in Hfix. }
  clear Hfix. rewrite execute_closed.
  unfold tracked_timers, tracked_entities in *. cbn [fst snd] in *.
  change (weak_nodes_ (add_node_wired node_ptr c w).1) with (weak_nodes_ c ++ [node_ptr]).
  rewrite !bind_app, !bind_singleton.
  rewrite node_timers_add_node_wired, node_entities_add_node_wired by done.
  set (bound := set_guard_condition_callback
                  (Some (associated_executor_ c)) (Some push_event) (Some (this c))).
  rewrite (list_bind_ext
             (λ node, node_timers
                        (with_nodes (alter bound node_ptr) (add_node_wired node_ptr c w).2)
                        node)
             (node_timers w) (weak_nodes_ c) (weak_nodes_ c))
    by (intros; by try apply node_timers_add_node_wired).
  rewrite (list_bind_ext
             (λ node, node_entities
                        (with_nodes (alter bound node_ptr) (add_node_wired node_ptr c w).2)
                        node)
             (node_entities w) (weak_nodes_ c) (weak_nodes_ c))
    by (intros; by try apply node_entities_add_node_wired).
  subst bound.
  unfold add_node_wired.
  cbn [fst snd nodes entities with_nodes with_entities weak_nodes_ timers_manager_
       with_weak_nodes with_timers_manager associated_executor_ this].
  f_equal.
  - unfold with_timers_manager, with_weak_nodes. cbn. f_equal.
    by rewrite Htm, list_to_set_app_L.
  - unfold with_entities, with_nodes. cbn. f_equal.
    apply map_eq. intros e. rewrite !lookup_register_all.
    apply (f_equal (λ m, m !! e)) in Hm. rewrite lookup_register_all in Hm.
    destruct (decide (e ∈ node_entities w node_ptr)) as [Hp|Hp].
    + rewrite decide_True by (apply elem_of_app; by right).
      by destruct (entities w !! e).
    + destruct (decide (e ∈ weak_nodes_ c ≫= node_entities w)) as [Hl|Hl].
      * by rewrite decide_True by (apply elem_of_app; by left).
      * rewrite decide_False; [done|]. rewrite elem_of_app. tauto.
Qed.

(** X8. A rebuild does not bring a removed node back: after a successful
    [remove_node], [execute] leaves every entity that is reached only from
    the removed node without callback, and every timer that is reached only
    from it out of the timers manager. *)
Theorem remove_node_then_execute
    (c : EventsExecutorEntitiesCollector) (w : World) (node_ptr : addr) (n : NodeBase)
    (l1 l2 : list addr) :
  weak_nodes_ c = l1 ++ node_ptr :: l2 →
  node_ptr ∉ l1 →
  nodes w !! node_ptr = Some n →
  rcl_set_callback_ret (rcl w) = RCL_RET_OK →
  (∀ e, entity_reached w node_ptr e →
        (∀ node, node ∈ l1 ++ l2 → ¬ entity_reached w node e) →
        entities (execute (remove_node node_ptr (c, w)).2).2 !! e
        = set_events_executor_callback None None <$> entities w !! e) ∧
  (∀ t, (∀ node, node ∈ l1 ++ l2 → ¬ timer_reached w node t) →
        t ∉ timers_manager_ (execute (remove_node node_ptr (c, w)).2).1).
Proof.
  intros Hweak Hnotin Hn Hret.
  unfold remove_node. rewrite bind_gets. cbn [fst]. rewrite Hweak.
  rewrite (remove_node_from_found node_ptr n 0 l1 l2 c w Hnotin Hn).
  rewrite decide_True by done. cbn [fst snd plus].
  unfold remove_node_unwired. rewrite execute_closed.
  unfold tracked_timers, tracked_entities.
  cbn [fst snd nodes entities with_nodes with_entities weak_nodes_ timers_manager_
       with_weak_nodes with_timers_manager associated_executor_].
  rewrite Hweak, delete_middle.
  set (unbound := set_guard_condition_callback None None None).
  assert (Htimers : ∀ node,
            node_timers
              (with_entities (register_all None None (node_entities w node_ptr))
                 (with_nodes (alter unbound node_ptr) w)) node
            = node_timers w node).
  { intros node. by rewrite node_timers_stable, node_timers_with_nodes. }
  assert (Hentities : ∀ node,
            node_entities
              (with_entities (register_all None None (node_entities w node_ptr))
                 (with_nodes (alter unbound node_ptr) w)) node
            = node_entities w node).
  { intros node. by rewrite node_entities_stable, node_entities_with_nodes. }
  split.
  - intros e He Hothers.
    rewrite lookup_register_all, decide_False.
    + rewrite lookup_register_all, decide_True; [done|]. by apply elem_of_node_entities.
    + rewrite list_elem_of_bind. intros (node & Hin & Hnode).
      rewrite Hentities in Hin. apply elem_of_node_entities in Hin.
      by apply (Hothers node).
  - intros t Hothers. rewrite elem_of_list_to_set, list_elem_of_bind.
    intros (node & Hin & Hnode).
    rewrite Htimers in Hin. apply elem_of_node_timers in Hin.
    by apply (Hothers node).
Qed.

(** * Further properties of the topic registration *)

(** X9. Whatever the arguments, [create_publisher] works at an address that
    was free: the publishers that existed are untouched, and so are the
    nodes, the callback groups (a new publisher is in no group yet) and the
    entities.  When the call throws, the store is exactly as before: the
    publisher that was built is gone.  When it returns, it returns that
    address and the publisher is there.  Without intra-process use the QoS is
    not looked at: the call returns the publisher as the factory built it
    and leaves the intra-process manager alone. *)
Theorem create_publisher_frame
    (nt : NodeTopics) (topic_name : string) (publisher_factory : PublisherFactory)
    (publisher_options : rcl_publisher_options_t) (use_intra_process : bool) (w : World) :
  let r := create_publisher nt topic_name publisher_factory publisher_options
             use_intra_process w in
  let publisher := fresh (dom (publishers w)) in
  publishers w !! publisher = None ∧
  (∀ p, p ≠ publisher → publishers r.2 !! p = publishers w !! p) ∧
  nodes r.2 = nodes w ∧ groups r.2 = groups w ∧ entities r.2 = entities w ∧
  (∀ e, r.1 = Throw e → r.2 = w) ∧
  (∀ a, r.1 = Ok a → a = publisher ∧ is_Some (publishers r.2 !! publisher)) ∧
  (use_intra_process = false →
     r.1 = Ok publisher ∧ ipm r.2 = ipm w ∧
     publishers r.2 !! publisher
     = Some (create_typed_publisher publisher_factory (node_base_ nt) topic_name
               publisher_options)).
Proof.
  cbv zeta. split; [apply fresh_publisher_None|].
  unfold create_publisher. rewrite bind_call.
  unfold make_shared_publisher. cbn [fst snd].
  destruct use_intra_process.
  - destruct (decide (history (publisher_qos publisher_options)
                      = RMW_QOS_POLICY_HISTORY_KEEP_ALL)) as [Hh|Hh];
      [|destruct (decide (durability (publisher_qos publisher_options)
                          ≠ RMW_QOS_POLICY_DURABILITY_VOLATILE)) as [Hd|Hd]];
      run_M.
    + split_and!; try done.
      * intros p Hp. by rewrite lookup_delete_ne, lookup_insert_ne.
      * intros e _. apply publisher_destroyed.
    + split_and!; try done.
      * intros p Hp. by rewrite lookup_delete_ne, lookup_insert_ne.
      * intros e _. apply publisher_destroyed.
    + split_and!; try done.
      * intros p Hp. by rewrite lookup_alter_ne, lookup_insert_ne.
      * intros a [= <-]. split; [done|].
        rewrite lookup_alter_eq, lookup_insert_eq. by eexists.
  - run_M. split_and!; try done.
    + intros p Hp. by rewrite lookup_insert_ne.
    + intros a [= <-]. split; [done|]. rewrite lookup_insert_eq. by eexists.
    + intros _. by rewrite lookup_insert_eq.
Qed.

(** X10. Whatever the arguments, [create_subscription] works at addresses
    that were free: every entity that existed is untouched (kind and
    registration), and so are the nodes, the callback groups (a new
    subscription is in no group yet) and the publishers.  When the call
    throws, the store is exactly as before: the subscription that was built
    is gone.  When it returns, it returns the address of the subscription
    and the subscription is there.  Without intra-process use the QoS is not
    looked at: the call returns the subscription, builds no second object
    and leaves the intra-process manager alone. *)
Theorem create_subscription_frame
    (nt : NodeTopics) (topic_name : string) (subscription_factory : SubscriptionFactory)
    (subscription_options : rcl_subscription_options_t) (use_intra_process : bool)
    (buffer_type : IntraProcessBufferType) (w : World) :
  let r := create_subscription nt topic_name subscription_factory subscription_options
             use_intra_process buffer_type w in
  let subscription := fresh (dom (entities w)) in
  let built := mkEntity
                 (SubscriptionBase
                    (create_typed_subscription subscription_factory (node_base_ nt)
                       topic_name subscription_options))
                 unregistered in
  entities w !! subscription = None ∧
  (∀ e, is_Some (entities w !! e) → entities r.2 !! e = entities w !! e) ∧
  nodes r.2 = nodes w ∧ groups r.2 = groups w ∧ publishers r.2 = publishers w ∧
  (∀ e, r.1 = Throw e → r.2 = w) ∧
  (∀ a, r.1 = Ok a → a = subscription ∧ is_Some (entities r.2 !! subscription)) ∧
  (use_intra_process = false →
     r.1 = Ok subscription ∧ ipm r.2 = ipm w ∧
     entities r.2 = <[subscription := built]> (entities w)).
Proof.
  cbv zeta. split; [apply fresh_entity_None|].
  set (built := mkEntity
                  (SubscriptionBase
                     (create_typed_subscription subscription_factory (node_base_ nt)
                        topic_name subscription_options))
                  unregistered).
  pose proof (fresh_entity_None (entities w)) as Hfresh.
  pose proof (fresh_entity_None (<[fresh (dom (entities w)) := built]> (entities w)))
    as Hfresh2.
  pose proof (fresh_entity_ne (entities w) built) as Hne.
  assert (Hold : ∀ e, is_Some (entities w !! e) → e ≠ fresh (dom (entities w))).
  { intros e [x Hx] ->. by rewrite Hfresh in Hx. }
  assert (Hold2 : ∀ e, is_Some (entities w !! e) →
                       e ≠ fresh (dom (<[fresh (dom (entities w)) := built]> (entities w)))).
  { intros e He ->. rewrite lookup_insert_ne in Hfresh2 by done.
    destruct He as [x Hx]. by rewrite Hfresh2 in Hx. }
  assert (Hgone : ∀ e, is_Some (entities w !! e) →
            delete (fresh (dom (entities w)))
              (<[fresh (dom (entities w)) := built]> (entities w)) !! e
            = entities w !! e).
  { intros e He. by rewrite delete_insert_eq, delete_id. }
  unfold create_subscription. rewrite bind_call.
  unfold make_shared_entity at 1. cbn [fst snd]. fold built.
  destruct use_intra_process.
  - destruct (decide (history (subscription_qos subscription_options)
                      = RMW_QOS_POLICY_HISTORY_KEEP_ALL)) as [Hh|Hh];
      [|destruct (decide (history (subscription_qos subscription_options)
                            = RMW_QOS_POLICY_HISTORY_KEEP_LAST
                          ∧ depth (subscription_qos subscription_options) = 0%N))
          as [Hk|Hk];
        [|destruct (decide (durability (subscription_qos subscription_options)
                            ≠ RMW_QOS_POLICY_DURABILITY_VOLATILE)) as [Hd|Hd]]].
    1-3: run_M; (split_and!; try done; intros e _; apply entity_destroyed).
    run_M. rewrite lookup_insert_eq. cbn -[fresh].
    split_and!; try done.
    + intros e He. pose proof (Hold e He). pose proof (Hold2 e He).
      by rewrite lookup_alter_ne, !lookup_insert_ne by done.
    + intros a [= <-]. split; [done|].
      rewrite lookup_alter_eq, lookup_insert_ne, lookup_insert_eq by done. by eexists.
  - run_M. split_and!; try done.
    + intros e He. rewrite lookup_insert_ne; [done|]. intros <-. by apply (Hold _ He).
    + intros a [= <-]. split; [done|]. rewrite lookup_insert_eq. by eexists.
Qed.

(** ** From creation to the executor *)

Lemma create_subscription_accepted
    nt topic_name subscription_factory subscription_options buffer_type w :
  history (subscription_qos subscription_options) ≠ RMW_QOS_POLICY_HISTORY_KEEP_ALL →
  ¬ (history (subscription_qos subscription_options) = RMW_QOS_POLICY_HISTORY_KEEP_LAST ∧
     depth (subscription_qos subscription_options) = 0%N) →
  durability (subscription_qos subscription_options) = RMW_QOS_POLICY_DURABILITY_VOLATILE →
  let r := create_subscription nt topic_name subscription_factory subscription_options
             true buffer_type w in
  let built := create_typed_subscription subscription_factory (node_base_ nt) topic_name
                 subscription_options in
  let subscription := fresh (dom (entities w)) in
  let companion :=
    fresh (dom (<[subscription := mkEntity (SubscriptionBase built) unregistered]>
                  (entities w))) in
  r.1 = Ok subscription ∧
  nodes r.2 = nodes w ∧ groups r.2 = groups w ∧ rcl r.2 = rcl w ∧
  entities r.2 !! subscription
  = Some (mkEntity
            (SubscriptionBase
               (mkSubscriptionFields (sub_topic_name built) (sub_event_handlers built)
                  (Some (ipm_next_id (ipm w)))))
            unregistered) ∧
  is_Some (entities r.2 !! companion) ∧
  ipm_get_subscription_intra_process (ipm_next_id (ipm w)) r.2 = Some companion.
Proof.
  intros Hh Hk Hd. cbv zeta. unfold create_subscription. rewrite bind_call.
  unfold make_shared_entity at 1. cbn [fst snd].
  rewrite decide_False by done. rewrite decide_False by done.
  rewrite decide_False by (intros H; by apply H).
  run_M. rewrite lookup_insert_eq. cbn -[fresh].
  pose proof (fresh_entity_ne (entities w)
                (mkEntity (SubscriptionBase
                   (create_typed_subscription subscription_factory (node_base_ nt)
                      topic_name subscription_options)) unregistered)) as Hne.
  split_and!; try done.
  - rewrite lookup_alter_eq, lookup_insert_ne, lookup_insert_eq by done. done.
  - rewrite lookup_alter_ne, lookup_insert_eq by done. by eexists.
  - unfold ipm_get_subscription_intra_process. cbn -[fresh].
    rewrite lookup_insert_eq. cbn -[fresh]. unfold lock_entity. cbn -[fresh].
    by rewrite lookup_alter_ne, lookup_insert_eq by done.
Qed.

(** X11. From creation to the executor: a subscription created with
    intra-process use under an accepted QoS, then added with
    [add_subscription] to the default group of its node, is wired by the next
    rebuild of a collector that tracks the node.  Both calls return normally,
    and after [execute] the subscription and its intra-process companion both
    carry the push callback of the collector's executor. *)
Theorem intra_process_subscription_is_wired
    (nt : NodeTopics) (topic_name : string) (subscription_factory : SubscriptionFactory)
    (subscription_options : rcl_subscription_options_t)
    (buffer_type : IntraProcessBufferType)
    (c : EventsExecutorEntitiesCollector) (w : World) (n : NodeBase) (group : CallbackGroup) :
  history (subscription_qos subscription_options) ≠ RMW_QOS_POLICY_HISTORY_KEEP_ALL →
  ¬ (history (subscription_qos subscription_options) = RMW_QOS_POLICY_HISTORY_KEEP_LAST ∧
     depth (subscription_qos subscription_options) = 0%N) →
  durability (subscription_qos subscription_options) = RMW_QOS_POLICY_DURABILITY_VOLATILE →
  nodes w !! node_base_ nt = Some n →
  default_callback_group n ∈ callback_groups n →
  groups w !! default_callback_group n = Some group →
  can_be_taken_from group = true →
  node_base_ nt ∈ weak_nodes_ c →
  rcl_trigger_ret (rcl w) = RCL_RET_OK →
  let r1 := create_subscription nt topic_name subscription_factory subscription_options
              true buffer_type w in
  let subscription := fresh (dom (entities w)) in
  let companion :=
    fresh (dom (<[subscription :=
                    mkEntity
                      (SubscriptionBase
                         (create_typed_subscription subscription_factory (node_base_ nt)
                            topic_name subscription_options))
                      unregistered]> (entities w))) in
  let r2 := add_subscription nt subscription None true r1.2 in
  let s3 := execute (c, r2.2) in
  r1.1 = Ok subscription ∧
  r2.1 = Ok tt ∧
  events_executor_callback <$> entities s3.2 !! subscription
  = Some (mkRegistration (Some (associated_executor_ c)) (Some push_event)) ∧
  events_executor_callback <$> entities s3.2 !! companion
  = Some (mkRegistration (Some (associated_executor_ c)) (Some push_event)).
Proof.
  intros Hh Hk Hd Hn Hdefault Hgroup Hcan Htracked Htrigger. cbv zeta.
  destruct (create_subscription_accepted nt topic_name subscription_factory
              subscription_options buffer_type w Hh Hk Hd)
    as (Hret1 & Hnodes1 & Hgroups1 & Hrcl1 & Hsub1 & [ec Hcompanion1] & Hipm1).
  cbv zeta in Hret1, Hnodes1, Hgroups1, Hrcl1, Hsub1, Hcompanion1, Hipm1.
  set (r1 := create_subscription nt topic_name subscription_factory subscription_options
               true buffer_type w) in *.
  set (subscription := fresh (dom (entities w))) in *.
  set (companion := fresh (dom (<[subscription := _]> (entities w)))) in *.
  set (f := mkSubscriptionFields _ _ (Some (ipm_next_id (ipm w)))) in Hsub1.
  split; [done|].
  rewrite (add_subscription_intra_process_closed nt subscription None r1.2 n
             (mkEntity (SubscriptionBase f) unregistered) f
             (default_callback_group n) group (ipm_next_id (ipm w)) companion);
    [|by rewrite Hnodes1|done|done|done|done|done|by rewrite Hgroups1].
  rewrite notify_executor_closed.
  cbn [rcl with_groups]. rewrite Hrcl1, decide_True by done. cbn [fst snd].
  split; [done|].
  rewrite execute_closed. cbn [snd entities with_entities with_nodes with_groups].
  set (w3 := with_nodes _ _).
  assert (Hreached : ∀ e,
            e = subscription ∨ e = companion →
            e ∈ tracked_entities (c, w3)).
  { intros e He. apply elem_of_tracked_entities.
    exists (node_base_ nt). split; [done|].
    exists (trigger_guard_condition n), (default_callback_group n),
      (group_push_waitables (sub_event_handlers f ++ [companion])
         (group_push_subscription subscription group)).
    subst w3. cbn [nodes groups with_nodes with_groups].
    rewrite lookup_alter_eq, Hnodes1, Hn, lookup_insert_eq.
    split_and!; try done.
    destruct He as [->| ->].
    - left. cbn. apply elem_of_app. right. by left.
    - right. right. right. cbn. rewrite !elem_of_app. right. right. by left. }
  split.
  - rewrite lookup_register_all, decide_True by (apply Hreached; by left).
    by rewrite Hsub1.
  - rewrite lookup_register_all, decide_True by (apply Hreached; by right).
    by rewrite Hcompanion1.
Qed.

(** ** What [add_node] leaves alone *)

(** X12. Whatever its outcome, [add_node] touches no other node, no callback
    group, no publisher and not the intra-process manager; it creates and
    destroys no entity and changes the kind of none; and an entity that is
    not reached through a live, enabled group of the node keeps the
    registration it had. *)
Theorem add_node_frame
    (c : EventsExecutorEntitiesCollector) (w : World) (node_ptr : addr) :
  (∀ q, q ≠ node_ptr → nodes (add_node node_ptr (c, w)).2.2 !! q = nodes w !! q) ∧
  groups (add_node node_ptr (c, w)).2.2 = groups w ∧
  publishers (add_node node_ptr (c, w)).2.2 = publishers w ∧
  ipm (add_node node_ptr (c, w)).2.2 = ipm w ∧
  (∀ e, kind <$> entities (add_node node_ptr (c, w)).2.2 !! e = kind <$> entities w !! e) ∧
  (∀ e, ¬ entity_reached w node_ptr e →
        entities (add_node node_ptr (c, w)).2.2 !! e = entities w !! e).
Proof.
  destruct (nodes w !! node_ptr) as [n|] eqn:Hn.
  - destruct (associated_with_executor n) eqn:Hflag.
    + by rewrite (add_node_owned c w node_ptr n Hn Hflag).
    + rewrite (add_node_fresh c w node_ptr n Hn Hflag).
      assert (Hkind : ∀ e,
                kind <$> register_all (Some (associated_executor_ c)) (Some push_event)
                           (node_entities w node_ptr) (entities w) !! e
                = kind <$> entities w !! e).
      { intros e. rewrite lookup_register_all. case_decide; [|done].
        by destruct (entities w !! e). }
      assert (Hkeep : ∀ e, ¬ entity_reached w node_ptr e →
                register_all (Some (associated_executor_ c)) (Some push_event)
                  (node_entities w node_ptr) (entities w) !! e
                = entities w !! e).
      { intros e He. rewrite lookup_register_all, decide_False; [done|].
        by rewrite elem_of_node_entities. }
      case_decide; unfold add_node_wired;
        cbn [fst snd nodes groups entities publishers ipm with_nodes with_entities];
        (split_and!; try done); intros q Hq; by rewrite ?lookup_alter_ne by done.
  - unfold add_node. rewrite bind_gets. cbn [snd]. by rewrite Hn.
Qed.

(** ** The further properties on the concrete store *)

(** A collector that tracks only the dead node 2: removing the live node 1
    from it walks past the expired pointer and does nothing, even where the
    transport layer would refuse. *)
Lemma remove_node_untracked_is_noop_witness :
  is_Some (nodes w0_failing !! 1) ∧
  (1 ∉ weak_nodes_ (mkCollector 900 90 {[100]} [2])) ∧
  remove_node 1 (mkCollector 900 90 {[100]} [2], w0_failing)
  = (Ok tt, (mkCollector 900 90 {[100]} [2], w0_failing)).
Proof.
  assert (Halive : is_Some (nodes w0_failing !! 1)) by (by exists node1).
  assert (Hnotin : 1 ∉ weak_nodes_ (mkCollector 900 90 {[100]} [2])).
  { cbn. rewrite elem_of_cons, elem_of_nil. intros [?|?]; done. }
  split_and!; [exact Halive|exact Hnotin|].
  exact (remove_node_untracked_is_noop _ w0_failing 1 Halive Hnotin).
Defined.

(** The wired store with a transport layer that refuses to unbind: node 1
    stays tracked. *)
Lemma remove_node_unbinding_refused_witness :
  1 ∈ weak_nodes_ executor_A1 ∧
  (remove_node 1
     (executor_A1,
      mkWorld (nodes w1) (groups w1) (entities w1) (publishers w1) (ipm w1)
        (mkRcl RCL_RET_ERROR RCL_RET_OK "guard condition is invalid"))).1
  = Throw (runtime_error "Couldn't set guard condition callback").
Proof.
  assert (Hin : 1 ∈ weak_nodes_ executor_A1) by (right; by left).
  split; [exact Hin|].
  by rewrite (remove_node_unbinding_refused executor_A1
                (mkWorld (nodes w1) (groups w1) (entities w1) (publishers w1) (ipm w1)
                   (mkRcl RCL_RET_ERROR RCL_RET_OK "guard condition is invalid"))
                1 node1_owned Hin eq_refl).
Defined.

Lemma add_node_twice_fails_witness :
  (add_node 1 (executor_A, w0)).1 = Ok tt ∧
  (add_node 1 (executor_B, (add_node 1 (executor_A, w0)).2.2)).1
  = Throw (runtime_error "Node has already been added to an executor.").
Proof.
  split; [vm_compute; reflexivity|].
  by rewrite (add_node_twice_fails executor_A executor_B w0 1 (add_node 1 (executor_A, w0)).2)
    by (vm_compute; reflexivity).
Defined.


(** A collector that tracks only the dead node 2 and still holds timer 100:
    the rebuild empties its timers manager and leaves the store alone. *)
Lemma execute_all_nodes_gone_witness :
  execute (mkCollector 900 90 {[100]} [2], w1) = (mkCollector 900 90 ∅ [2], w1).
Proof.
  apply (execute_all_nodes_gone (mkCollector 900 90 {[100]} [2]) w1).
  intros node Hin. apply list_elem_of_singleton in Hin as ->. reflexivity.
Defined.

(** Node 1 is free but its subscription 101 still carries the callback of
    executor 90; executor B adds the node and removes it again: 101 is left
    without callback and the node is still owned. *)
Lemma add_node_then_remove_node_witness :
  nodes w0_stale !! 1 = Some node1 ∧
  (1 ∉ weak_nodes_ executor_B) ∧
  (remove_node 1 (add_node 1 (executor_B, w0_stale)).2).1 = Ok tt ∧
  weak_nodes_ (remove_node 1 (add_node 1 (executor_B, w0_stale)).2).2.1 = [] ∧
  associated_with_executor
    <$> nodes (remove_node 1 (add_node 1 (executor_B, w0_stale)).2).2.2 !! 1 = Some true ∧
  events_executor_callback <$> entities w0_stale !! 101
  = Some (mkRegistration (Some 90) (Some push_event)) ∧
  events_executor_callback
    <$> entities (remove_node 1 (add_node 1 (executor_B, w0_stale)).2).2.2 !! 101
  = Some unregistered.
Proof.
  assert (Hnotin : 1 ∉ weak_nodes_ executor_B) by apply not_elem_of_nil.
  destruct (add_node_then_remove_node executor_B w0_stale 1 node1
              eq_refl eq_refl eq_refl Hnotin)
    as (Hret & Hweak & _ & Hcleared & _ & Hnode).
  split_and!; [reflexivity|exact Hnotin|exact Hret|exact Hweak|by rewrite Hnode
              |reflexivity|].
  by rewrite (Hcleared 101 demo_w0_stale_101_reached).
Defined.

Lemma add_node_keeps_rebuild_fixed_point_witness :
  execute (executor_A, w0) = (executor_A, w0) ∧
  (add_node 1 (executor_A, w0)).1 = Ok tt ∧
  execute (add_node 1 (executor_A, w0)).2 = (add_node 1 (executor_A, w0)).2.
Proof.
  assert (Hfix : execute (executor_A, w0) = (executor_A, w0)) by (vm_compute; reflexivity).
  split_and!; [exact Hfix|vm_compute; reflexivity|].
  apply (add_node_keeps_rebuild_fixed_point executor_A w0 1 _ Hfix).
  vm_compute. reflexivity.
Defined.

(** Node 1 is removed from the executor that also tracks the dead node 2;
    the rebuild that follows leaves subscription 101 without callback and
    timer 100 out of the timers manager. *)
Lemma remove_node_then_execute_witness :
  weak_nodes_ executor_A1 = [2] ++ 1 :: [] ∧
  (1 ∉ [2]) ∧
  events_executor_callback
    <$> entities (execute (remove_node 1 (executor_A1, w1)).2).2 !! 101
  = Some unregistered ∧
  100 ∉ timers_manager_ (execute (remove_node 1 (executor_A1, w1)).2).1.
Proof.
  assert (Hnotin : 1 ∉ [2]).
  { rewrite elem_of_cons, elem_of_nil. intros [?|?]; done. }
  destruct (remove_node_then_execute executor_A1 w1 1 node1_owned [2] []
              eq_refl Hnotin eq_refl eq_refl) as (Hentities & Htimers).
  assert (Hgone : ∀ node, node ∈ [2] ++ [] → nodes w1 !! node = None).
  { intros node Hin. apply list_elem_of_singleton in Hin as ->. reflexivity. }
  split_and!; [reflexivity|exact Hnotin| |].
  - rewrite (Hentities 101 demo_101_reached); [done|].
    intros node Hin (n & _ & _ & Hnode & _). by rewrite (Hgone node Hin) in Hnode.
  - apply Htimers.
    intros node Hin (n & _ & _ & Hnode & _). by rewrite (Hgone node Hin) in Hnode.
Defined.

(** A subscription on "chatter" with keep-last 10 is created on node 1,
    added to its default group 10 and wired by the rebuild of executor 90:
    the subscription 112 and its companion 113 carry the push callback. *)
Lemma intra_process_subscription_is_wired_witness :
  (create_subscription node_topics "chatter" subscription_factory
     (mkSubscriptionOptions qos_keep_last_10) true SharedPtrBuffer w1).1 = Ok 112 ∧
  events_executor_callback
    <$> entities
          (execute
             (executor_A1,
              (add_subscription node_topics 112 None true
                 (create_subscription node_topics "chatter" subscription_factory
                    (mkSubscriptionOptions qos_keep_last_10) true SharedPtrBuffer w1).2).2)).2
        !! 112
  = Some (mkRegistration (Some 90) (Some push_event)) ∧
  events_executor_callback
    <$> entities
          (execute
             (executor_A1,
              (add_subscription node_topics 112 None true
                 (create_subscription node_topics "chatter" subscription_factory
                    (mkSubscriptionOptions qos_keep_last_10) true SharedPtrBuffer w1).2).2)).2
        !! 113
  = Some (mkRegistration (Some 90) (Some push_event)).
Proof.
  assert (Hk : ¬ (history (subscription_qos (mkSubscriptionOptions qos_keep_last_10))
                  = RMW_QOS_POLICY_HISTORY_KEEP_LAST
                  ∧ depth (subscription_qos (mkSubscriptionOptions qos_keep_last_10)) = 0%N))
    by (intros [_ Hdepth]; discriminate Hdepth).
  assert (Hh : history (subscription_qos (mkSubscriptionOptions qos_keep_last_10))
               ≠ RMW_QOS_POLICY_HISTORY_KEEP_ALL) by discriminate.
  assert (Hdefault : default_callback_group node1_owned ∈ callback_groups node1_owned)
    by (by left).
  assert (Htracked : node_base_ node_topics ∈ weak_nodes_ executor_A1)
    by (right; by left).
  destruct (intra_process_subscription_is_wired node_topics "chatter" subscription_factory
              (mkSubscriptionOptions qos_keep_last_10) SharedPtrBuffer executor_A1 w1
              node1_owned (mkCallbackGroup true [100] [101; 105] [102] [103] [104])
              Hh Hk eq_refl eq_refl Hdefault eq_refl eq_refl Htracked eq_refl)
    as (Hret & _ & Hsub & Hcompanion).
  split_and!; [exact Hret|exact Hsub|exact Hcompanion].
Defined.

(** ** What [remove_node] leaves alone *)

Lemma remove_node_from_dead node_ptr rest i (c : EventsExecutorEntitiesCollector) w :
  nodes w !! node_ptr = None →
  (remove_node_from node_ptr i rest (c, w)).2 = (c, w).
Proof.
  intros Hdead. revert i. induction rest as [|a rest IH]; intros i; [done|].
  cbn [remove_node_from]. rewrite bind_gets. cbn [snd].
  destruct (bool_decide (lock_node a w = lock_node node_ptr w)); [|apply IH].
  rewrite bind_gets. cbn [snd]. by rewrite Hdead.
Qed.

(** X13. Whatever its outcome, [remove_node] changes the ownership flag of
    no node (not even of the node it removes), touches no other node, no
    callback group, no publisher and not the intra-process manager, changes
    the kind of no entity, and leaves the registration of every entity that
    is not reached through a live, enabled group of the node. *)
Theorem remove_node_frame
    (c : EventsExecutorEntitiesCollector) (w : World) (node_ptr : addr) :
  (∀ q, associated_with_executor <$> nodes (remove_node node_ptr (c, w)).2.2 !! q
        = associated_with_executor <$> nodes w !! q) ∧
  (∀ q, q ≠ node_ptr → nodes (remove_node node_ptr (c, w)).2.2 !! q = nodes w !! q) ∧
  groups (remove_node node_ptr (c, w)).2.2 = groups w ∧
  publishers (remove_node node_ptr (c, w)).2.2 = publishers w ∧
  ipm (remove_node node_ptr (c, w)).2.2 = ipm w ∧
  (∀ e, kind <$> entities (remove_node node_ptr (c, w)).2.2 !! e
        = kind <$> entities w !! e) ∧
  (∀ e, ¬ entity_reached w node_ptr e →
        entities (remove_node node_ptr (c, w)).2.2 !! e = entities w !! e).
Proof.
  unfold remove_node. rewrite bind_gets. cbn [fst].
  destruct (nodes w !! node_ptr) as [n|] eqn:Hn;
    [|by rewrite (remove_node_from_dead node_ptr _ 0 c w Hn)].
  destruct (decide (node_ptr ∈ weak_nodes_ c)) as [Hin|Hnotin];
    [|by rewrite (remove_node_from_absent node_ptr n _ 0 c w Hn Hnotin)].
  apply list_elem_of_split_l in Hin as (l1 & l2 & -> & Hnotin).
  rewrite (remove_node_from_found node_ptr n 0 l1 l2 c w Hnotin Hn).
  case_decide; [|done]. unfold remove_node_unwired.
  cbn [fst snd nodes groups entities publishers ipm with_nodes with_entities].
  split_and!; try done.
  - intros q. rewrite lookup_alter. case_decide; [subst q|done]. by rewrite Hn.
  - intros q Hq. by rewrite lookup_alter_ne.
  - intros e. rewrite lookup_register_all. case_decide; [|done].
    by destruct (entities w !! e).
  - intros e He. rewrite lookup_register_all, decide_False; [done|].
    by rewrite elem_of_node_entities.
Qed.

(** ** From [add_publisher] to the executor *)

(** X14. The event handlers of a publisher reach the executor: after
    [add_publisher] of a publisher to the default group of its node (which
    returns normally), the next rebuild of a collector that tracks the node
    registers the push callback of its executor on every event handler of the
    publisher. *)
Theorem publisher_event_handlers_are_wired
    (nt : NodeTopics) (publisher : addr) (p : PublisherBase)
    (c : EventsExecutorEntitiesCollector) (w : World) (n : NodeBase) (group : CallbackGroup) :
  nodes w !! node_base_ nt = Some n →
  publishers w !! publisher = Some p →
  default_callback_group n ∈ callback_groups n →
  groups w !! default_callback_group n = Some group →
  can_be_taken_from group = true →
  node_base_ nt ∈ weak_nodes_ c →
  rcl_trigger_ret (rcl w) = RCL_RET_OK →
  (add_publisher nt publisher None w).1 = Ok tt ∧
  (∀ handler, handler ∈ pub_event_handlers p →
     entities (execute (c, (add_publisher nt publisher None w).2)).2 !! handler
     = set_events_executor_callback (Some (associated_executor_ c)) (Some push_event)
         <$> entities w !! handler).
Proof.
  intros Hn Hp Hdefault Hgroup Hcan Htracked Htrigger.
  rewrite (add_publisher_closed nt publisher None w n p (default_callback_group n) group)
    by done.
  rewrite notify_executor_closed. cbn [rcl with_groups].
  rewrite decide_True by done. cbn [fst snd].
  split; [done|]. intros handler Hhandler.
  rewrite execute_closed. cbn [snd entities with_entities with_nodes with_groups].
  rewrite lookup_register_all, decide_True; [done|].
  apply elem_of_tracked_entities. exists (node_base_ nt). split; [done|].
  exists (trigger_guard_condition n), (default_callback_group n),
    (group_push_waitables (pub_event_handlers p) group).
  cbn [nodes groups with_nodes with_groups].
  rewrite lookup_alter_eq, Hn, lookup_insert_eq.
  split_and!; try done.
  right. right. right. cbn. apply elem_of_app. by right.
Qed.

(** Publisher 0 of the store [w2] has the event handler 104; node 1 is added
    to a collector first, so that the collector tracks it. *)
Lemma publisher_event_handlers_are_wired_witness :
  publishers w2 !! 0 = Some (mkPublisherBase "/topic" [104] (Some 0%Z)) ∧
  (add_publisher node_topics 0 None w2).1 = Ok tt ∧
  events_executor_callback
    <$> entities (execute (mkCollector 900 90 ∅ [1],
                           (add_publisher node_topics 0 None w2).2)).2 !! 104
  = Some (mkRegistration (Some 90) (Some push_event)).
Proof.
  assert (Hdefault : default_callback_group node1 ∈ callback_groups node1) by (by left).
  assert (Htracked : node_base_ node_topics ∈ weak_nodes_ (mkCollector 900 90 ∅ [1]))
    by (by left).
  destruct (publisher_event_handlers_are_wired node_topics 0
              (mkPublisherBase "/topic" [104] (Some 0%Z)) (mkCollector 900 90 ∅ [1]) w2
              node1 (mkCallbackGroup true [100] [101; 105] [102] [103] [104])
              eq_refl eq_refl Hdefault eq_refl eq_refl Htracked eq_refl)
    as (Hret & Hwired).
  split_and!; [reflexivity|exact Hret|].
  assert (Hin : 104 ∈ pub_event_handlers (mkPublisherBase "/topic" [104] (Some 0%Z)))
    by (by left).
  by rewrite (Hwired 104 Hin).
Defined.
